(** * NearbyPlanes: a shallow embedding of the Home Assistant plugin

    The plugin polls ADSB.fi for the aircraft around a location entity and
    shows them as a count sensor and as one map marker per aircraft.  The
    development follows the source files: [sensor.py] (the normalizer, the
    coordinator's fetch and the count sensor), [geo_location.py] (the map
    markers) and [config_flow.py] (the setup wizard).

    Python objects are values of [value]; a [dict] with string keys is a
    [gmap string value]; code that can raise returns an [outcome]. *)

From Stdlib Require Import ZArith String Ascii SpecFloat.
From stdpp Require Import gmap strings list fin_maps pretty.

Set Warnings "-register-all".
Open Scope string_scope.
Open Scope list_scope.

(** ** Python values, as far as JSON and the plugin need them *)

(** A [str] is a [string] with one [ascii] per code point, so the model
    covers the code points below 256.  A [float] is an IEEE 754 binary64
    number, [spec_float].  Object identity is not modelled. *)
Inductive value : Type :=
  | VNone
  | VBool (b : bool)
  | VInt (n : Z)
  | VFloat (f : spec_float)
  | VStr (s : string)
  | VList (l : list value)
  | VDict (d : gmap string value).

Abbreviation pydict := (gmap string value).

(** The exceptions the modelled code raises, all subclasses of [Exception]. *)
Inductive exn : Type :=
  | AttributeError
  | TypeError
  | KeyError
  | TimeoutError
  | ClientError
  | ClientResponseError (status : Z)
  | JSONDecodeError
  | InvalidLocationEntity.

Inductive outcome (A : Type) : Type :=
  | Returned (a : A)
  | Raised (e : exn).
Arguments Returned {A} a.
Arguments Raised {A} e.

#[export] Instance outcome_ret : MRet outcome := fun A a => Returned a.
#[export] Instance outcome_bind : MBind outcome := fun A B f m =>
  match m with
  | Returned a => f a
  | Raised e => Raised e
  end.

(** [bool(v)] *)
Definition truthy (v : value) : bool :=
  match v with
  | VNone => false
  | VBool b => b
  | VInt n => negb (n =? 0)%Z
  | VFloat (S754_zero _) => false
  | VFloat _ => true
  | VStr s => negb (Nat.eqb (String.length s) 0)
  | VList l => negb (Nat.eqb (length l) 0)
  | VDict d => negb (Nat.eqb (size d) 0)
  end.

(** [a or b] *)
Definition py_or (a b : value) : value := if truthy a then a else b.

(** [d.get(k)] and [d.get(k, dflt)] *)
Definition py_get (d : pydict) (k : string) : value := default VNone (d !! k).
Definition py_get_default (d : pydict) (k : string) (dflt : value) : value :=
  default dflt (d !! k).

(** [d[k]] *)
Definition py_index (d : pydict) (k : string) : outcome value :=
  match d !! k with
  | Some v => Returned v
  | None => Raised KeyError
  end.

(** [v.get(k, dflt)] on an arbitrary object: only a dict has the method. *)
Definition obj_get_default (v : value) (k : string) (dflt : value) : outcome value :=
  match v with
  | VDict d => Returned (py_get_default d k dflt)
  | _ => Raised AttributeError
  end.

(** A dict display [{k1: v1, ..., kn: vn}]: the items are stored from left to
    right, a later item replacing an earlier one with the same key. *)
Definition py_dict (items : list (string * value)) : pydict :=
  foldl (fun d kv => <[kv.1 := kv.2]> d) ∅ items.

(** *** Equality [a == b] *)

(** A float and an int are compared exactly. *)
Definition float_eq_int (f : spec_float) (n : Z) : bool :=
  match f with
  | S754_zero _ => (n =? 0)%Z
  | S754_finite s m e =>
      let v := if s then Z.neg m else Z.pos m in
      if (0 <=? e)%Z then (n =? v * 2 ^ e)%Z else (n * 2 ^ (- e) =? v)%Z
  | _ => false
  end.

Definition int_of_bool (b : bool) : Z := if b then 1%Z else 0%Z.

(** Lists compare element by element, dicts key by key; [bool] is a subclass
    of [int]; values of unrelated types are unequal. *)
Fixpoint py_eq (a b : value) {struct a} : bool :=
  match a, b with
  | VNone, VNone => true
  | VBool x, VBool y => (int_of_bool x =? int_of_bool y)%Z
  | VBool x, VInt n => (int_of_bool x =? n)%Z
  | VInt n, VBool y => (n =? int_of_bool y)%Z
  | VInt n, VInt m => (n =? m)%Z
  | VBool x, VFloat f => float_eq_int f (int_of_bool x)
  | VFloat f, VBool y => float_eq_int f (int_of_bool y)
  | VInt n, VFloat f => float_eq_int f n
  | VFloat f, VInt n => float_eq_int f n
  | VFloat f, VFloat g => SFeqb f g
  | VStr s, VStr t => String.eqb s t
  | VList xs, VList ys =>
      (fix go (xs ys : list value) {struct xs} : bool :=
         match xs, ys with
         | [], [] => true
         | x :: xs', y :: ys' => py_eq x y && go xs' ys'
         | _, _ => false
         end) xs ys
  | VDict d, VDict e =>
      Nat.eqb (size d) (size e)
      && map_fold (fun k v acc =>
                     acc && match e !! k with
                            | Some w => py_eq v w
                            | None => false
                            end) true d
  | _, _ => false
  end.

(** [hash(v)] raises [TypeError] on a list or a dict. *)
Definition hashable (v : value) : bool :=
  match v with
  | VList _ | VDict _ => false
  | _ => true
  end.

(** Which object holds a value is not part of a [value], so [x is y] is a
    parameter of the model: identical objects hold the same value, and
    nothing else is assumed of identity. *)
Class Identity := {
  py_is : value → value → bool;
  py_is_same : ∀ x y, py_is x y = true → x = y
}.

(** [x in s] for a set [s], kept as the list of its members: a member is
    found when it is the object [x] or is [==] to it. *)
Definition set_contains {objects : Identity} (x : value) (s : list value)
  : outcome bool :=
  if hashable x then Returned (existsb (λ e, py_is x e || py_eq x e) s)
  else Raised TypeError.

(** *** [str.strip()] *)

(** [c.isspace()] for a code point below 256. *)
Definition is_space (c : ascii) : bool :=
  let n := nat_of_ascii c in
  (((9 <=? n) && (n <=? 13)) || ((28 <=? n) && (n <=? 32))
   || (n =? 133) || (n =? 160))%nat.

Fixpoint lstrip (s : string) : string :=
  match s with
  | EmptyString => EmptyString
  | String c s' => if is_space c then lstrip s' else s
  end.

Fixpoint rstrip (s : string) : string :=
  match s with
  | EmptyString => EmptyString
  | String c s' =>
      match rstrip s' with
      | EmptyString => if is_space c then EmptyString else String c EmptyString
      | r => String c r
      end
  end.

Definition strip (s : string) : string := rstrip (lstrip s).

(** [v.strip()] on an arbitrary object. *)
Definition obj_strip (v : value) : outcome string :=
  match v with
  | VStr s => Returned (strip s)
  | _ => Raised AttributeError
  end.

(** ** What the plugin takes from outside *)

(** [const.py] is not among the sources: its names are parameters of the
    development. *)
Class Const : Type := {
  DOMAIN : string;
  CONF_LOCATION_ENTITY_ID : string;
  CONF_DISTANCE : string;
  DEFAULT_NAME : string;
  DEFAULT_UPDATE_INTERVAL : Z;
}.

(** [homeassistant.const.CONF_NAME] *)
Definition CONF_NAME : string := "name".

(** [format(v)], what a replacement field [{v}] of an f-string expands to.
    The decimal rendering of a float is not modelled: it is a parameter. *)
Class Formatter : Type := format : value → string.

(** The float literal [25.0]: 25 * 2^48 * 2^-48. *)
Definition float_25 : spec_float := S754_finite false 7036874417766400 (-48).

(** The host platform, as far as the plugin calls it. *)
Module homeassistant.

(** A state of the registry; [attributes] is always a mapping, and a
    [State] object is truthy. *)
Record State : Type := { attributes : pydict }.

(** What one [session.get(url)] under a timeout, followed by
    [raise_for_status()] and [json()], can meet. *)
Inductive http_result : Type :=
  | HttpTimeout
  | HttpClientError
  | HttpResponse (status : Z) (json : outcome value).

Record HomeAssistant : Type := {
  states : string → option State;
  http : string → http_result;
}.

(** [hass.states.get(entity_id)]: the registry is keyed by [str] and the
    lookup lowercases its argument, which only a [str] supports. *)
Definition states_get (hass : HomeAssistant) (entity_id : value)
  : outcome (option State) :=
  match entity_id with
  | VStr s => Returned (states hass s)
  | VList _ | VDict _ => Raised TypeError
  | _ => Raised AttributeError
  end.

(** [resp.raise_for_status()] followed by [await resp.json()] *)
Definition read_json (r : http_result) : outcome value :=
  match r with
  | HttpTimeout => Raised TimeoutError
  | HttpClientError => Raised ClientError
  | HttpResponse status json =>
      if (400 <=? status)%Z then Raised (ClientResponseError status) else json
  end.

Record ConfigEntry : Type := { data : pydict; options : pydict }.

End homeassistant.

(** ** Effects: what a coroutine logs and requests *)

Inductive event : Type :=
  | LogError (msg : string)
  | LogDebug (msg : string)
  | HttpGet (url : string) (timeout : Z).

(** A computation leaves a trace of events and returns or raises. *)
Record io (A : Type) : Type := IO { trace : list event; result : outcome A }.
Arguments IO {A} trace result.
Arguments trace {A} i.
Arguments result {A} i.

#[export] Instance io_ret : MRet io := fun A a => IO [] (Returned a).
#[export] Instance io_bind : MBind io := fun A B f m =>
  match result m with
  | Returned a => IO (trace m ++ trace (f a)) (result (f a))
  | Raised e => IO (trace m) (Raised e)
  end.

Definition emit (e : event) : io unit := IO [e] (Returned tt).
Definition lift {A : Type} (o : outcome A) : io A := IO [] o.

(** [try: body / except Exception as err: handler(err)]; every [exn] is an
    [Exception]. *)
Definition try_except {A : Type} (body : io A) (handler : exn → io A) : io A :=
  match result body with
  | Returned a => body
  | Raised err => IO (trace body ++ trace (handler err)) (result (handler err))
  end.

(** [for x in v]: the items of a list, the characters of a str, the keys of
    a dict (in the order of [map_to_list], not of insertion); other objects
    are not iterable. *)
Definition py_iter (v : value) : outcome (list value) :=
  match v with
  | VList l => Returned l
  | VStr s => Returned ((λ c, VStr (String c EmptyString)) <$> list_ascii_of_string s)
  | VDict d => Returned (VStr <$> (map_to_list d).*1)
  | _ => Raised TypeError
  end.

(** ** sensor.py *)
Module sensor.
Import homeassistant.

Definition normalize_plane (p : pydict) : outcome pydict :=
  flight ← obj_strip (py_or (py_get p "flight") (VStr ""));
  mret (py_dict [
    ("hex", py_get p "hex");
    ("type", py_get p "type");
    ("flight", py_or (VStr flight) VNone);
    ("t", py_get p "t");
    ("aircraft_type", py_get p "t");
    ("description", py_get p "desc");
    ("category", py_get p "category");
    ("lat", py_get p "lat");
    ("lon", py_get p "lon");
    ("alt_baro", py_get p "alt_baro");
    ("ground_speed", py_get p "gs");
    ("true_heading", py_get p "true_heading");
    ("nav_modes", py_get_default p "nav_modes" (VList []));
    ("on_ground", VBool (py_eq (py_get p "alt_baro") (VStr "ground")));
    ("squawk", py_get p "squawk");
    ("emergency", py_get p "emergency");
    ("distance", py_get p "dst");
    ("bearing", py_get p "dir");
    ("seen", py_get p "seen");
    ("seen_pos", py_get p "seen_pos");
    ("messages", py_get p "messages");
    ("rssi", py_get p "rssi")
  ]).

(** [normalize_plane(p)] for an arbitrary object [p]: the first thing it
    does is [p.get]. *)
Definition normalize_plane_obj (p : value) : outcome pydict :=
  match p with
  | VDict d => normalize_plane d
  | _ => Raised AttributeError
  end.

Record PlanesCoordinator : Type := {
  _location_entity_id : value;
  _distance : value;
  data : option (list pydict);
}.

Section fetch.
Context `{!Formatter}.

Definition url_of (lat lon distance : value) : string :=
  "https://opendata.adsb.fi/api/v3/lat/" +:+ format lat
  +:+ "/lon/" +:+ format lon +:+ "/dist/" +:+ format distance.

(** Lines 99-115 of the [try] block: the request and the normalization
    pass, once [lat] and [lon] are known. *)
Definition fetch_planes (self : PlanesCoordinator) (hass : HomeAssistant)
    (lat lon : value) : io (list pydict) :=
  let url := url_of lat lon (_distance self) in
  emit (LogDebug "Planes Nearby: requesting ADSB.fi data from %s");;
  emit (HttpGet url 10);;
  data ← lift (read_json (http hass url));
  ac ← lift (obj_get_default data "ac" (VList []));
  let raw_planes := py_or ac (VList []) in
  planes ← lift (items ← py_iter raw_planes;
                 mapM normalize_plane_obj items);
  emit (LogDebug "Planes Nearby: fetched %d planes");;
  mret planes.

(** The body of the [try] block.  [return planes] inside it returns the
    initial empty list. *)
Definition try_body (self : PlanesCoordinator) (hass : HomeAssistant)
  : io (list pydict) :=
  let planes : list pydict := [] in
  state ← lift (states_get hass (_location_entity_id self));
  match state with
  | None =>
      emit (LogError "Planes Nearby: entity %s not found");;
      mret planes
  | Some state =>
      let lat := py_get (attributes state) "latitude" in
      let lon := py_get (attributes state) "longitude" in
      match lat, lon with
      | VNone, _ | _, VNone =>
          emit (LogError "Planes Nearby: entity %s has no latitude/longitude");;
          mret planes
      | _, _ => fetch_planes self hass lat lon
      end
  end.

(** On an exception [planes] is still the initial empty list: the
    comprehension is assigned only once it has run to its end. *)
Definition _async_update_data (self : PlanesCoordinator) (hass : HomeAssistant)
  : io (list pydict) :=
  let planes : list pydict := [] in
  try_except (try_body self hass)
    (λ err, emit (LogError "Planes Nearby: error updating data: %s");;
            mret planes).

End fetch.

(** The host's [DataUpdateCoordinator] runs [_async_update_data] once per
    cycle.  When it returns, the result becomes [data], the cycle counts as
    successful and the listeners are called.  When it raises, [data] is
    kept, the cycle counts as failed and the listeners are called only if
    the cycle before had succeeded. *)
Record cycle : Type := {
  after : PlanesCoordinator;
  last_update_success : bool;
  listeners_called : bool;
}.

Definition async_refresh `{!Formatter} (self : PlanesCoordinator)
    (hass : HomeAssistant) (previous_update_success : bool) : cycle :=
  match result (_async_update_data self hass) with
  | Returned planes =>
      {| after := {| _location_entity_id := _location_entity_id self;
                     _distance := _distance self;
                     data := Some planes |};
         last_update_success := true;
         listeners_called := true |}
  | Raised _ =>
      {| after := self;
         last_update_success := false;
         listeners_called := previous_update_success |}
  end.

Record PlanesNearbySensor : Type := {
  _attr_name : value;
  _attr_unique_id : string;
}.

(** [async_setup_entry] builds the coordinator and the sensor; the first
    refresh then fills [data]. *)
Definition async_setup_entry `{!Const} (entry : ConfigEntry)
  : PlanesCoordinator * PlanesNearbySensor :=
  let name := py_get_default (homeassistant.data entry) CONF_NAME (VStr DEFAULT_NAME) in
  let location_entity_id :=
    py_get_default (options entry) CONF_LOCATION_ENTITY_ID
      (py_get (homeassistant.data entry) CONF_LOCATION_ENTITY_ID) in
  let distance :=
    py_get_default (options entry) CONF_DISTANCE
      (py_get_default (homeassistant.data entry) CONF_DISTANCE (VFloat float_25)) in
  let coordinator :=
    {| _location_entity_id := location_entity_id;
       _distance := distance;
       data := None |} in
  (coordinator,
   {| _attr_name := name; _attr_unique_id := "planes_nearby_sensor" |}).

(** The properties of [PlanesNearbySensor] read [self.coordinator], passed
    here in its current state. *)
Definition native_value (coordinator : PlanesCoordinator) : nat :=
  let planes := default [] (data coordinator) in
  let airborne :=
    List.filter (λ p, negb (truthy (py_get p "on_ground"))) planes in
  length airborne.

Definition extra_state_attributes (coordinator : PlanesCoordinator) : pydict :=
  let planes := default [] (data coordinator) in
  py_dict [
    ("total_planes", VInt (Z.of_nat (length planes)));
    ("planes", VList (VDict <$> planes))
  ].

End sensor.

(** ** geo_location.py *)
Module geo_location.
Import homeassistant.

(** [async_setup_entry] builds a coordinator of its own. *)
Definition async_setup_entry `{!Const} (entry : ConfigEntry)
  : sensor.PlanesCoordinator :=
  let location_entity_id :=
    py_get_default (options entry) CONF_LOCATION_ENTITY_ID
      (py_get (data entry) CONF_LOCATION_ENTITY_ID) in
  let distance :=
    py_get_default (options entry) CONF_DISTANCE
      (py_get_default (data entry) CONF_DISTANCE (VFloat float_25)) in
  {| sensor._location_entity_id := location_entity_id;
     sensor._distance := distance;
     sensor.data := None |}.

Record PlaneGeoLocation : Type := { hex_id : value }.

(** [{e.hex_id for e in entities}]: a set holds hashable objects only.  The
    set is kept as the list of its members. *)
Definition py_set (l : list value) : outcome (list value) :=
  if forallb hashable l then Returned l else Raised TypeError.

(** The [for plane in coordinator.data or []] loop of [_update_entities]. *)
Fixpoint scan {objects : Identity} (planes : list pydict)
    (existing_hexes : list value) (new_entities : list PlaneGeoLocation)
  : outcome (list PlaneGeoLocation) :=
  match planes with
  | [] => Returned new_entities
  | plane :: planes' =>
      let hex_id := py_get plane "hex" in
      skip ← (if negb (truthy hex_id) then mret true
              else set_contains hex_id existing_hexes);
      if (skip : bool) then scan planes' existing_hexes new_entities
      else
        let new_entity := {| hex_id := hex_id |} in
        scan planes' (existing_hexes ++ [hex_id]) (new_entities ++ [new_entity])
  end.

(** [_update_entities()] on the closure's [entities] and the coordinator's
    current state: the new value of [entities] and the entities handed to
    [async_add_entities] (none when there is no new one). *)
Definition _update_entities {objects : Identity}
    (entities : list PlaneGeoLocation) (coordinator : sensor.PlanesCoordinator)
  : outcome (list PlaneGeoLocation * list PlaneGeoLocation) :=
  existing_hexes ← py_set (hex_id <$> entities);
  new_entities ← scan (default [] (sensor.data coordinator)) existing_hexes [];
  mret (entities ++ new_entities, new_entities).

(** The closure's [entities] as the coordinator goes through the given
    states: the first is the one of the initial call, the others those of
    the listener calls.  A call that raises leaves [entities] as it was. *)
Definition listener {objects : Identity} (entities : list PlaneGeoLocation)
    (coordinator : sensor.PlanesCoordinator) : list PlaneGeoLocation :=
  match _update_entities entities coordinator with
  | Returned r => r.1
  | Raised _ => entities
  end.

Definition entities_after {objects : Identity}
    (snapshots : list sensor.PlanesCoordinator) : list PlaneGeoLocation :=
  foldl listener [] snapshots.

(** The properties of [PlaneGeoLocation] read [self.coordinator], passed
    here in its current state. *)
Definition _plane (self : PlaneGeoLocation) (coordinator : sensor.PlanesCoordinator)
  : option pydict :=
  List.find (λ p, py_eq (py_get p "hex") (hex_id self))
    (default [] (sensor.data coordinator)).

Definition available (self : PlaneGeoLocation)
    (coordinator : sensor.PlanesCoordinator) : bool :=
  match _plane self coordinator with
  | Some _ => true
  | None => false
  end.

(** [plane.get(k) if plane else None] *)
Definition get_if (plane : option pydict) (k : string) : value :=
  match plane with
  | Some p => if truthy (VDict p) then py_get p k else VNone
  | None => VNone
  end.

Definition latitude (self : PlaneGeoLocation)
    (coordinator : sensor.PlanesCoordinator) : value :=
  get_if (_plane self coordinator) "lat".

Definition longitude (self : PlaneGeoLocation)
    (coordinator : sensor.PlanesCoordinator) : value :=
  get_if (_plane self coordinator) "lon".

Definition state (self : PlaneGeoLocation)
    (coordinator : sensor.PlanesCoordinator) : value :=
  get_if (_plane self coordinator) "distance".

(** [self._attr_unique_id], which [__init__] sets to
    [f"planes_nearby_{hex_id}"]. *)
Definition unique_id `{!Formatter} (self : PlaneGeoLocation) : string :=
  "planes_nearby_" +:+ format (hex_id self).

Definition source `{!Const} (self : PlaneGeoLocation) : string := DOMAIN.

(** The [name] property; [flight.strip()] raises on a truthy ['flight'] that
    is not a string. *)
Definition name `{!Formatter} (self : PlaneGeoLocation)
    (coordinator : sensor.PlanesCoordinator) : outcome string :=
  let plane := _plane self coordinator in
  match plane with
  | None => Returned ("Plane " +:+ format (hex_id self))
  | Some plane =>
      if negb (truthy (VDict plane))
      then Returned ("Plane " +:+ format (hex_id self))
      else
        flight ← obj_strip (py_or (py_get plane "flight") (VStr ""));
        if truthy (VStr flight)
        then mret (format (VStr flight) +:+ " (" +:+ format (hex_id self) +:+ ")")
        else mret ("Plane " +:+ format (hex_id self))
  end.

(** [PlaneGeoLocation.extra_state_attributes]; [self._plane() or {}] is the
    empty dict when there is no plane. *)
Definition extra_state_attributes (self : PlaneGeoLocation)
    (coordinator : sensor.PlanesCoordinator) : pydict :=
  let plane : pydict :=
    match _plane self coordinator with
    | Some p => if truthy (VDict p) then p else ∅
    | None => ∅
    end in
  py_dict [
    ("hex", py_get plane "hex");
    ("flight", py_get plane "flight");
    ("t", py_get plane "t");
    ("alt_baro", py_get plane "alt_baro");
    ("true_heading", py_get plane "true_heading");
    ("nav_modes", py_get_default plane "nav_modes" (VList []));
    ("distance", py_get plane "distance");
    ("on_ground", py_get plane "on_ground");
    ("rssi", py_get plane "rssi")
  ].

End geo_location.

(** ** config_flow.py *)
Module config_flow.
Import homeassistant.

Definition _validate_location_entity (hass : HomeAssistant) (entity_id : value)
  : outcome unit :=
  state ← states_get hass entity_id;
  match state with
  | None => Raised InvalidLocationEntity
  | Some state =>
      let attrs := if truthy (VDict (attributes state)) then attributes state else ∅ in
      if negb (bool_decide ("latitude" ∈ dom attrs))
         || negb (bool_decide ("longitude" ∈ dom attrs))
      then Raised InvalidLocationEntity
      else Returned tt
  end.

(** A field of a [vol.Schema]. *)
Inductive validator : Type := Str | CoerceFloat.
Record field : Type := {
  key : string;
  required : bool;
  default_value : option value;
  validate : validator;
}.

(** What a step hands back to the host: an entry to create, or the form to
    show (again). *)
Inductive FlowResult : Type :=
  | create_entry (title : value) (data : pydict)
  | show_form (step_id : string) (data_schema : list field)
      (errors : gmap string string).

Section flows.
Context `{!Const}.

Definition user_schema : list field := [
  {| key := CONF_NAME; required := false;
     default_value := Some (VStr DEFAULT_NAME); validate := Str |};
  {| key := CONF_LOCATION_ENTITY_ID; required := true;
     default_value := None; validate := Str |};
  {| key := CONF_DISTANCE; required := true;
     default_value := Some (VFloat float_25); validate := CoerceFloat |}
].

(** [PlanesNearbyConfigFlow.async_step_user] *)
Definition async_step_user (hass : HomeAssistant) (user_input : option pydict)
  : outcome FlowResult :=
  let _errors : gmap string string := ∅ in
  after_input ←
    match user_input with
    | Some user_input =>
        let name := py_or (py_get user_input CONF_NAME) (VStr DEFAULT_NAME) in
        location_entity_id ← py_index user_input CONF_LOCATION_ENTITY_ID;
        distance ← py_index user_input CONF_DISTANCE;
        match _validate_location_entity hass location_entity_id with
        | Raised InvalidLocationEntity =>
            mret (inl (<["base" := "invalid_entity"]> _errors))
        | Raised err => Raised err
        | Returned _ =>
            mret (inr (create_entry name (py_dict [
              (CONF_NAME, name);
              (CONF_LOCATION_ENTITY_ID, location_entity_id);
              (CONF_DISTANCE, distance)
            ])))
        end
    | None => mret (inl _errors)
    end;
  match after_input with
  | inr entry => mret entry
  | inl _errors => mret (show_form "user" user_schema _errors)
  end.

Definition init_schema (config_entry : ConfigEntry) : list field :=
  let current_location :=
    py_or (py_or (py_get (options config_entry) CONF_LOCATION_ENTITY_ID)
                 (py_get (data config_entry) CONF_LOCATION_ENTITY_ID))
          (VStr "") in
  let current_distance :=
    py_or (py_or (py_get (options config_entry) CONF_DISTANCE)
                 (py_get (data config_entry) CONF_DISTANCE))
          (VFloat float_25) in
  [ {| key := CONF_LOCATION_ENTITY_ID; required := true;
       default_value := Some current_location; validate := Str |};
    {| key := CONF_DISTANCE; required := true;
       default_value := Some current_distance; validate := CoerceFloat |} ].

(** [PlanesNearbyOptionsFlowHandler.async_step_init] *)
Definition async_step_init (hass : HomeAssistant) (config_entry : ConfigEntry)
    (user_input : option pydict) : outcome FlowResult :=
  let _errors : gmap string string := ∅ in
  after_input ←
    match user_input with
    | Some user_input =>
        location_entity_id ← py_index user_input CONF_LOCATION_ENTITY_ID;
        distance ← py_index user_input CONF_DISTANCE;
        match _validate_location_entity hass location_entity_id with
        | Raised InvalidLocationEntity =>
            mret (inl (<["base" := "invalid_entity"]> _errors))
        | Raised err => Raised err
        | Returned _ =>
            mret (inr (create_entry (VStr "") (py_dict [
              (CONF_LOCATION_ENTITY_ID, location_entity_id);
              (CONF_DISTANCE, distance)
            ])))
        end
    | None => mret (inl _errors)
    end;
  match after_input with
  | inr entry => mret entry
  | inl _errors => mret (show_form "init" (init_schema config_entry) _errors)
  end.

(** The host stores the data of an options flow's entry as the config
    entry's [options]; a shown form changes nothing. *)
Definition apply_options (config_entry : ConfigEntry) (r : FlowResult)
  : ConfigEntry :=
  match r with
  | create_entry _ d => {| data := data config_entry; options := d |}
  | show_form _ _ _ => config_entry
  end.

End flows.
End config_flow.

(** ** Words of the specification *)

Fixpoint all_space (s : string) : bool :=
  match s with
  | EmptyString => true
  | String c s' => is_space c && all_space s'
  end.

Definition first_char (s : string) : option ascii :=
  match s with
  | EmptyString => None
  | String c _ => Some c
  end.

Fixpoint last_char (s : string) : option ascii :=
  match s with
  | EmptyString => None
  | String c EmptyString => Some c
  | String _ s' => last_char s'
  end.

(** [t] is [s] without the whitespace at its two ends. *)
Definition whitespace_trimmed (s t : string) : Prop :=
  ∃ l r, s = l +:+ t +:+ r
    ∧ all_space l = true ∧ all_space r = true
    ∧ (∀ c, first_char t = Some c → is_space c = false)
    ∧ (∀ c, last_char t = Some c → is_space c = false).

(** The input's ['flight'], when there is one, is [None] or a [str]. *)
Definition flight_typed (p : pydict) : Prop :=
  p !! "flight" = None ∨ p !! "flight" = Some VNone
  ∨ ∃ s, p !! "flight" = Some (VStr s).

(** The fields of a normalized record, each with the input field it is read
    from. *)
Definition renamed_fields : list (string * string) := [
  ("distance", "dst"); ("bearing", "dir"); ("ground_speed", "gs");
  ("description", "desc"); ("aircraft_type", "t")
].

Definition copied_fields : list string := [
  "hex"; "type"; "t"; "category"; "lat"; "lon"; "alt_baro"; "true_heading";
  "squawk"; "emergency"; "seen"; "seen_pos"; "messages"; "rssi"
].

Definition output_keys : list string := [
  "hex"; "type"; "flight"; "t"; "aircraft_type"; "description"; "category";
  "lat"; "lon"; "alt_baro"; "ground_speed"; "true_heading"; "nav_modes";
  "on_ground"; "squawk"; "emergency"; "distance"; "bearing"; "seen";
  "seen_pos"; "messages"; "rssi"
].

Definition field_sources : list (string * string) :=
  renamed_fields ++ ((λ k, (k, k)) <$> copied_fields)
  ++ [("flight", "flight"); ("nav_modes", "nav_modes"); ("on_ground", "alt_baro")].

(** What an output field holds when its input field is absent. *)
Definition absent_default (out : string) : value :=
  if decide (out = "nav_modes") then VList []
  else if decide (out = "on_ground") then VBool false
  else VNone.

Section coordinator_words.
Context `{!Formatter}.
Import homeassistant.

(** The location entity resolves to the latitude [lat] and the longitude
    [lon]. *)
Definition located (self : sensor.PlanesCoordinator) (hass : HomeAssistant)
    (lat lon : value) : Prop :=
  ∃ st, states_get hass (sensor._location_entity_id self) = Returned (Some st)
    ∧ py_get (attributes st) "latitude" = lat
    ∧ py_get (attributes st) "longitude" = lon
    ∧ lat ≠ VNone ∧ lon ≠ VNone.

(** What the coordinator requests once located. *)
Definition request_of (self : sensor.PlanesCoordinator) (hass : HomeAssistant)
    (lat lon : value) : http_result :=
  http hass (sensor.url_of lat lon (sensor._distance self)).

(** The failure modes of an update cycle. *)
Inductive failure_mode (self : sensor.PlanesCoordinator) (hass : HomeAssistant)
  : Prop :=
  | entity_not_found :
      states_get hass (sensor._location_entity_id self) = Returned None →
      failure_mode self hass
  | no_latitude_longitude st :
      states_get hass (sensor._location_entity_id self) = Returned (Some st) →
      attributes st !! "latitude" = None ∨ attributes st !! "longitude" = None →
      failure_mode self hass
  | http_error_status lat lon status json :
      located self hass lat lon →
      request_of self hass lat lon = HttpResponse status json →
      (400 ≤ status)%Z →
      failure_mode self hass
  | request_timeout lat lon :
      located self hass lat lon →
      request_of self hass lat lon = HttpTimeout →
      failure_mode self hass
  | request_exception lat lon :
      located self hass lat lon →
      request_of self hass lat lon = HttpClientError →
      failure_mode self hass
  | json_exception lat lon status err :
      located self hass lat lon →
      request_of self hass lat lon = HttpResponse status (Raised err) →
      failure_mode self hass.

Definition is_get (e : event) : bool :=
  match e with
  | HttpGet _ _ => true
  | _ => false
  end.

Definition is_error (e : event) : bool :=
  match e with
  | LogError _ => true
  | _ => false
  end.

End coordinator_words.

(** The number of planes of a snapshot whose ['on_ground'] is falsy. *)
Fixpoint airborne_count (planes : list pydict) : nat :=
  match planes with
  | [] => 0
  | p :: planes' =>
      (if truthy (py_get p "on_ground") then 0 else 1) + airborne_count planes'
  end.

(** The snapshot a presenter reads: [None] counts as the empty list. *)
Definition snapshot (coordinator : sensor.PlanesCoordinator) : list pydict :=
  match sensor.data coordinator with
  | Some planes => planes
  | None => []
  end.

(** Every ['hex'] of the snapshots is [None] (or absent) or a string. *)
Definition hex_typed (p : pydict) : Prop :=
  py_get p "hex" = VNone ∨ ∃ h, py_get p "hex" = VStr h.

Definition hexes_typed (snapshots : list sensor.PlanesCoordinator) : Prop :=
  Forall (λ c, Forall hex_typed (snapshot c)) snapshots.

(** The identifier [h] has appeared in one of the snapshots. *)
Definition seen (snapshots : list sensor.PlanesCoordinator) (h : string) : Prop :=
  ∃ c p, c ∈ snapshots ∧ p ∈ snapshot c ∧ p !! "hex" = Some (VStr h).

(** An entity whose identifier is a non-empty string. *)
Definition str_entity (e : geo_location.PlaneGeoLocation) : Prop :=
  ∃ h, geo_location.hex_id e = VStr h ∧ h ≠ EmptyString.

(** The entity [entity_id] exists in the state registry and its attributes
    contain both ['latitude'] and ['longitude']. *)
Definition valid_location (hass : homeassistant.HomeAssistant)
    (entity_id : string) : Prop :=
  ∃ st, homeassistant.states hass entity_id = Some st
    ∧ is_Some (homeassistant.attributes st !! "latitude")
    ∧ is_Some (homeassistant.attributes st !! "longitude").

(** The form of a step, shown again with the error. *)
Definition invalid_entity_errors : gmap string string :=
  {[ "base" := "invalid_entity" ]}.

(** The value under [k] of the entry's options when present there, of its
    initial data otherwise, and [fallback] when it is in neither. *)
Definition options_then_data (entry : homeassistant.ConfigEntry) (k : string)
    (fallback : value) : value :=
  match homeassistant.options entry !! k with
  | Some v => v
  | None =>
      match homeassistant.data entry !! k with
      | Some v => v
      | None => fallback
      end
  end.

(** ** Words for the further properties *)

(** [t] has no whitespace at either end. *)
Definition tight (t : string) : Prop :=
  (∀ c, first_char t = Some c → is_space c = false)
  ∧ (∀ c, last_char t = Some c → is_space c = false).

(** What every record of a snapshot looks like: the 22 keys, a boolean
    ['on_ground'], and a ['flight'] that is [None] or a non-empty string
    without whitespace at its ends. *)
Definition normalized_record (r : pydict) : Prop :=
  dom r = list_to_set output_keys
  ∧ (∃ b, r !! "on_ground" = Some (VBool b))
  ∧ (r !! "flight" = Some VNone
     ∨ ∃ t, r !! "flight" = Some (VStr t) ∧ t ≠ EmptyString ∧ tight t).

(** A raw element of ['ac'] that the normalizer accepts. *)
Definition normalizable (v : value) : Prop :=
  ∃ p, v = VDict p ∧ flight_typed p.

(** A raw element of ['ac'] whose ['alt_baro'] is not the string ["ground"]. *)
Definition raw_airborne (v : value) : bool :=
  match v with
  | VDict p => negb (py_eq (py_get p "alt_baro") (VStr "ground"))
  | _ => false
  end.

(** An element of ['ac'] on which the normalizer raises: it is not a dict,
    or its ['flight'] is truthy and not a string. *)
Definition malformed (v : value) : Prop :=
  (∀ p, v ≠ VDict p)
  ∨ ∃ p f, v = VDict p ∧ p !! "flight" = Some f ∧ truthy f = true
      ∧ ∀ s, f ≠ VStr s.

Section answered_words.
Context `{!Formatter}.

(** The coordinator is located and the server answers its request with a
    success status and a JSON object whose ['ac'] is the list [raw]. *)
Definition answered (self : sensor.PlanesCoordinator)
    (hass : homeassistant.HomeAssistant) (raw : list value) : Prop :=
  ∃ lat lon status d,
    located self hass lat lon
    ∧ request_of self hass lat lon
      = homeassistant.HttpResponse status (Returned (VDict d))
    ∧ (status < 400)%Z
    ∧ d !! "ac" = Some (VList raw).

End answered_words.

(** [p] is the first plane of the coordinator's snapshot whose ['hex'] is
    the string [h]. *)
Definition first_match (coordinator : sensor.PlanesCoordinator) (h : string)
    (p : pydict) : Prop :=
  ∃ pre rest, snapshot coordinator = pre ++ p :: rest
    ∧ Forall (λ q, q !! "hex" ≠ Some (VStr h)) pre
    ∧ p !! "hex" = Some (VStr h).

(** The keys of a marker's [extra_state_attributes]. *)
Definition marker_keys : list string := [
  "hex"; "flight"; "t"; "alt_baro"; "true_heading"; "nav_modes"; "distance";
  "on_ground"; "rssi"
].

(** What a marker attribute holds for the plane [p]. *)
Definition marker_attribute (p : pydict) (k : string) : value :=
  if decide (k = "nav_modes") then py_get_default p k (VList [])
  else py_get p k.

(** The fields of a form with their default values. *)
Definition form_defaults (schema : list config_flow.field)
  : list (string * option value) :=
  (λ f, (config_flow.key f, config_flow.default_value f)) <$> schema.

(** The config entry that the host makes of the wizard's result: the data
    of the created entry, and no options yet. *)
Definition entry_of (d : pydict) : homeassistant.ConfigEntry :=
  {| homeassistant.data := d; homeassistant.options := ∅ |}.

(** ** A sample installation, for the examples *)

(** Sample values for the names of [const.py]. *)
Definition sample_const : Const := {|
  DOMAIN := "planes_nearby";
  CONF_LOCATION_ENTITY_ID := "location_entity_id";
  CONF_DISTANCE := "distance";
  DEFAULT_NAME := "Planes Nearby";
  DEFAULT_UPDATE_INTERVAL := 30;
|}.

(** A formatter that is right on [None], [bool], [int] and [str]; the
    samples use no other value in a URL. *)
Definition sample_format : Formatter := λ v,
  match v with
  | VNone => "None"
  | VBool true => "True"
  | VBool false => "False"
  | VInt n => pretty n
  | VStr s => s
  | _ => EmptyString
  end.

(** Objects as Python's [json] module decodes them: every NaN is the one
    NaN object of the decoder; no other hashable value needs identity to be
    found in a set. *)
Definition sample_objects : Identity.
Proof.
  refine {| py_is := λ x y,
              match x, y with
              | VFloat S754_nan, VFloat S754_nan => true
              | _, _ => false
              end |}.
  intros [| | |[]| | |] [| | |[]| | |]; done.
Defined.

Definition sample_record : pydict :=
  {[ "hex" := VStr "4601f2"; "flight" := VStr "FIN5LA  ";
     "alt_baro" := VStr "ground"; "gs" := VInt 12 ]}.

Definition sample_home : homeassistant.State :=
  {| homeassistant.attributes :=
       {[ "latitude" := VInt 60; "longitude" := VInt 25 ]} |}.

(** A registry with the one entity [zone.home], and a server that answers
    every request with status 200 and the JSON [body]. *)
Definition sample_hass (body : value) : homeassistant.HomeAssistant :=
  {| homeassistant.states := λ entity_id,
       if String.eqb entity_id "zone.home" then Some sample_home else None;
     homeassistant.http := λ _, homeassistant.HttpResponse 200 (Returned body) |}.

Definition sample_coordinator (planes : option (list pydict))
  : sensor.PlanesCoordinator :=
  {| sensor._location_entity_id := VStr "zone.home";
     sensor._distance := VInt 25;
     sensor.data := planes |}.

Definition sample_snapshots : list sensor.PlanesCoordinator := [
  sample_coordinator (Some [ {[ "hex" := VStr "4601f2" ]}; {[ "hex" := VNone ]} ]);
  sample_coordinator None;
  sample_coordinator (Some [ {[ "hex" := VStr "a1b2c3" ]}; {[ "hex" := VStr "4601f2" ]};
                             {[ "hex" := VStr "" ]} ])
].

Definition sample_input : pydict :=
  {[ "location_entity_id" := VStr "zone.home"; "distance" := VFloat float_25 ]}.

Definition sample_entry : homeassistant.ConfigEntry :=
  {| homeassistant.data :=
       {[ "name" := VStr "Planes Nearby";
          "location_entity_id" := VStr "person.me";
          "distance" := VInt 10 ]};
     homeassistant.options := ∅ |}.

(** A snapshot in which the identifier [abc123] is followed by a ['hex']
    that cannot be hashed. *)
Definition sample_unhashable : sensor.PlanesCoordinator :=
  sample_coordinator
    (Some [ {[ "hex" := VStr "abc123" ]}; {[ "hex" := VList [VInt 1] ]} ]).

(** A JSON body with the sample record, and one with a record too many
    that is no object. *)
Definition sample_body : value :=
  VDict {[ "ac" := VList [VDict sample_record] ]}.

Definition sample_bad_body : value :=
  VDict {[ "ac" := VList [VDict sample_record; VInt 3] ]}.

(** A registry whose one entity has a null latitude. *)
Definition sample_hass_null : homeassistant.HomeAssistant :=
  {| homeassistant.states := λ entity_id,
       if String.eqb entity_id "zone.home"
       then Some {| homeassistant.attributes :=
                      {[ "latitude" := VNone; "longitude" := VInt 25 ]} |}
       else None;
     homeassistant.http := λ _, homeassistant.HttpTimeout |}.

(** An entry whose options hold a distance of 0.0. *)
Definition sample_entry_zero : homeassistant.ConfigEntry :=
  {| homeassistant.data := {[ "distance" := VInt 10 ]};
     homeassistant.options := {[ "distance" := VFloat (S754_zero false) ]} |}.

(** * Properties *)

(** ** Python builtins *)

Lemma py_dict_list_to_map (items : list (string * value)) :
  py_dict items = list_to_map (reverse items).
Proof.
  unfold py_dict. rewrite <- (reverse_involutive items) at 1.
  induction (reverse items) as [|[k v] l IH]; [done|].
  rewrite reverse_cons, foldl_app. simpl. by rewrite IH.
Qed.

Lemma py_dict_lookup (items : list (string * value)) k v :
  NoDup items.*1 → (k, v) ∈ items → py_dict items !! k = Some v.
Proof.
  intros Hnd Hin. rewrite py_dict_list_to_map.
  apply elem_of_list_to_map_1.
  - by rewrite fmap_reverse, reverse_Permutation.
  - by apply elem_of_reverse.
Qed.

Lemma py_dict_dom (items : list (string * value)) :
  dom (py_dict items) = list_to_set items.*1.
Proof.
  rewrite py_dict_list_to_map, dom_list_to_map_L, fmap_reverse.
  apply set_eq. intros k. rewrite !elem_of_list_to_set. apply elem_of_reverse.
Qed.

(** ** [str.strip()] trims *)

Lemma lstrip_spec s :
  ∃ l, s = l +:+ lstrip s ∧ all_space l = true
    ∧ ∀ c, first_char (lstrip s) = Some c → is_space c = false.
Proof.
  induction s as [|c s (l & Hs & Hl & Hc)]; simpl.
  - exists EmptyString. by repeat split.
  - destruct (is_space c) eqn:Hsp.
    + exists (String c l). simpl. rewrite Hsp. repeat split; [by rewrite Hs at 1|done..].
    + exists EmptyString. repeat split; try done. simpl. by intros ? [= <-].
Qed.

Lemma rstrip_spec s :
  ∃ r, s = rstrip s +:+ r ∧ all_space r = true
    ∧ (∀ c, last_char (rstrip s) = Some c → is_space c = false)
    ∧ (rstrip s = EmptyString ∨ first_char (rstrip s) = first_char s).
Proof.
  induction s as [|c s (r & Hs & Hr & Hc & _)]; simpl.
  - exists EmptyString. repeat split; try done. by left.
  - destruct (rstrip s) as [|d t] eqn:Ht.
    + change (s = r) in Hs. subst r. destruct (is_space c) eqn:Hsp.
      * exists (String c s). simpl. rewrite Hsp. repeat split; try done. by left.
      * exists s. repeat split; try done; [|by right]. simpl. by intros ? [= <-].
    + exists r. repeat split; try done; [by rewrite Hs at 1|by right].
Qed.

Lemma strip_trims s : whitespace_trimmed s (strip s).
Proof.
  unfold strip.
  destruct (lstrip_spec s) as (l & Hs & Hl & Hfirst).
  destruct (rstrip_spec (lstrip s)) as (r & Hs' & Hr & Hlast & Hhead).
  exists l, r. repeat split; try done.
  - by rewrite <- Hs'.
  - intros c Hc. destruct Hhead as [Hnil|Heq].
    + by rewrite Hnil in Hc.
    + apply Hfirst. by rewrite <- Heq.
Qed.

Lemma py_eq_str v t : py_eq v (VStr t) = true ↔ v = VStr t.
Proof.
  destruct v; simpl; try (split; [discriminate|by intros [=]]).
  rewrite String.eqb_eq. split; [by intros ->|by intros [=]].
Qed.

Lemma py_get_Some_not_None d k v : v ≠ VNone → py_get d k = v ↔ d !! k = Some v.
Proof.
  intros Hv. unfold py_get. destruct (d !! k); simpl; split; intros H; try congruence.
Qed.

Lemma truthy_str t : truthy (VStr t) = false ↔ t = EmptyString.
Proof. destruct t; simpl; split; by try discriminate. Qed.

(** ** The normalizer *)

Lemma flight_strip p :
  flight_typed p →
  obj_strip (py_or (py_get p "flight") (VStr "")) =
    Returned (match p !! "flight" with
              | Some (VStr s) => strip s
              | _ => EmptyString
              end).
Proof.
  unfold py_get, py_or. intros [H|[H|[s H]]]; rewrite H; simpl; try done.
  by destruct s.
Qed.

Ltac py_dict_field :=
  apply py_dict_lookup;
  [ cbn [fmap list_fmap fst]; apply (bool_decide_unpack _); by vm_compute
  | rewrite !elem_of_cons; auto 30 ].

(** C1, as amended: on an input whose ['flight'] is absent, [None] or a
    string, [normalize_plane] returns a record whose ['flight'] is the
    input's ['flight'] with the whitespace at both ends removed, or [None]
    when that is empty or the input has no ['flight'] or [None]; whose
    ['on_ground'] is true exactly when the input's ['alt_baro'] is the
    string ["ground"]; whose renamed fields hold the input fields they are
    read from and whose other fields are copied, an absent input field
    giving [None]. *)
Theorem normalize_plane_fields (p : pydict) :
  flight_typed p →
  ∃ r, sensor.normalize_plane p = Returned r
    ∧ (∀ s, p !! "flight" = Some (VStr s) →
         ∃ t, whitespace_trimmed s t
           ∧ r !! "flight" = Some (if decide (t = EmptyString) then VNone else VStr t))
    ∧ (p !! "flight" = None ∨ p !! "flight" = Some VNone →
         r !! "flight" = Some VNone)
    ∧ (∃ b, r !! "on_ground" = Some (VBool b)
         ∧ (b = true ↔ p !! "alt_baro" = Some (VStr "ground")))
    ∧ Forall (λ f, r !! f.1 = Some (default VNone (p !! f.2))) renamed_fields
    ∧ Forall (λ k, r !! k = Some (default VNone (p !! k))) copied_fields.
Proof.
  intros Hp. unfold sensor.normalize_plane. rewrite (flight_strip p Hp).
  eexists. split; [reflexivity|]. repeat split.
  - intros s Hs. rewrite Hs. exists (strip s). split; [apply strip_trims|].
    unfold py_or. case_decide as Ht.
    + rewrite (proj2 (truthy_str _) Ht). py_dict_field.
    + destruct (truthy (VStr (strip s))) eqn:Htr; [py_dict_field|].
      by apply truthy_str in Htr.
  - intros [H|H]; rewrite H; py_dict_field.
  - eexists. split; [py_dict_field|]. rewrite py_eq_str.
    by apply py_get_Some_not_None.
  - repeat constructor; py_dict_field.
  - repeat constructor; py_dict_field.
Qed.

(** C1 as stated fails: a record whose ['flight'] is a number makes
    [normalize_plane] raise instead of returning a record. *)
Lemma normalize_plane_flight_number :
  sensor.normalize_plane {[ "flight" := VInt 5 ]} = Raised AttributeError
  ∧ ¬ ∃ r, sensor.normalize_plane {[ "flight" := VInt 5 ]} = Returned r.
Proof. split; [reflexivity|]. by intros [r [=]]. Qed.

(** C8, as amended: on an input whose ['flight'], if present and not
    [None], is a string, [normalize_plane] returns a dict with exactly the
    22 output keys, whatever keys the input has; an output field whose input
    field is absent is [None], except ['nav_modes'], which is the empty
    list, and ['on_ground'], which is false. *)
Theorem normalize_plane_keys (p : pydict) :
  flight_typed p →
  ∃ r, sensor.normalize_plane p = Returned r
    ∧ dom r = list_to_set output_keys
    ∧ size (dom r) = 22
    ∧ Forall (λ f, p !! f.2 = None → r !! f.1 = Some (absent_default f.1))
        field_sources.
Proof.
  intros Hp. unfold sensor.normalize_plane. rewrite (flight_strip p Hp).
  eexists. split; [reflexivity|]. split; [|split].
  - by rewrite py_dict_dom.
  - rewrite py_dict_dom. by vm_compute.
  - repeat constructor; cbn [fst snd]; intros Habs;
      (erewrite py_dict_lookup;
       [ | cbn [fmap list_fmap fst]; apply (bool_decide_unpack _); by vm_compute
         | rewrite !elem_of_cons; auto 30 ]);
      unfold py_get, py_get_default; rewrite ?Habs; reflexivity.
Qed.

(** C8 as stated fails on the count: the record has 22 keys, not 21. *)
Lemma normalize_plane_22_keys :
  ∃ r, sensor.normalize_plane ∅ = Returned r
    ∧ size (dom r) = 22 ∧ size (dom r) ≠ 21.
Proof. eexists. split; [reflexivity|]. by vm_compute. Qed.

(** ** The coordinator *)

Section coordinator.
Context `{!Formatter}.
Import homeassistant.

Lemma update_result self hass :
  result (sensor._async_update_data self hass) =
    match result (sensor.try_body self hass) with
    | Returned planes => Returned planes
    | Raised _ => Returned []
    end.
Proof.
  unfold sensor._async_update_data, try_except.
  by destruct (result (sensor.try_body self hass)) eqn:E.
Qed.

Lemma try_body_located self hass lat lon :
  located self hass lat lon →
  trace (sensor.try_body self hass) = trace (sensor.fetch_planes self hass lat lon)
  ∧ result (sensor.try_body self hass) = result (sensor.fetch_planes self hass lat lon).
Proof.
  intros (st & Hst & <- & <- & Hlat & Hlon). unfold sensor.try_body.
  rewrite Hst.
  split; unfold mbind, io_bind, lift; cbn [result trace app];
    by destruct (py_get (attributes st) "latitude"),
      (py_get (attributes st) "longitude").
Qed.

Lemma fetch_planes_result self hass lat lon :
  result (sensor.fetch_planes self hass lat lon) =
    (data ← read_json (request_of self hass lat lon);
     ac ← obj_get_default data "ac" (VList []);
     items ← py_iter (py_or ac (VList []));
     mapM sensor.normalize_plane_obj items).
Proof.
  unfold sensor.fetch_planes, request_of. simpl.
  destruct (read_json _) as [data|]; simpl; [|done].
  destruct (obj_get_default data _ _) as [ac|]; simpl; [|done].
  destruct (py_iter _) as [items|]; simpl; [|done].
  by destruct (mapM _ items).
Qed.

Lemma fetch_planes_gets self hass lat lon :
  List.filter is_get (trace (sensor.fetch_planes self hass lat lon)) =
    [HttpGet (sensor.url_of lat lon (sensor._distance self)) 10].
Proof.
  unfold sensor.fetch_planes. simpl.
  destruct (read_json _) as [data|]; simpl; [|done].
  destruct (obj_get_default data _ _) as [ac|]; simpl; [|done].
  destruct (py_iter _) as [items|]; simpl; [|done].
  by destruct (mapM _ items).
Qed.

Lemma fetch_planes_no_error self hass lat lon planes :
  result (sensor.fetch_planes self hass lat lon) = Returned planes →
  List.filter is_error (trace (sensor.fetch_planes self hass lat lon)) = [].
Proof.
  unfold sensor.fetch_planes. simpl.
  destruct (read_json _) as [data|]; simpl; [|done].
  destruct (obj_get_default data _ _) as [ac|]; simpl; [|done].
  destruct (py_iter _) as [items|]; simpl; [|done].
  by destruct (mapM _ items).
Qed.

Lemma update_trace self hass :
  trace (sensor._async_update_data self hass) =
    trace (sensor.try_body self hass)
    ++ match result (sensor.try_body self hass) with
       | Returned _ => []
       | Raised _ => [LogError "Planes Nearby: error updating data: %s"]
       end.
Proof.
  unfold sensor._async_update_data, try_except.
  destruct (result (sensor.try_body self hass)) eqn:E; [|done].
  by rewrite app_nil_r.
Qed.

Lemma failure_mode_try_body self hass :
  failure_mode self hass →
  result (sensor.try_body self hass) = Returned []
  ∨ ∃ err, result (sensor.try_body self hass) = Raised err.
Proof.
  intros [Hst|st Hst Hattr|lat lon status json Hloc Hreq Hstatus
         |lat lon Hloc Hreq|lat lon Hloc Hreq|lat lon status err Hloc Hreq].
  - left. unfold sensor.try_body. by rewrite Hst.
  - left. unfold sensor.try_body, py_get. rewrite Hst.
    unfold mbind, io_bind, lift. cbn [result trace app].
    destruct Hattr as [->| ->]; simpl; [done|].
    by destruct (default VNone (attributes st !! "latitude")).
  - right. destruct (try_body_located _ _ _ _ Hloc) as [_ ->].
    rewrite fetch_planes_result, Hreq. simpl.
    destruct (Z.leb_spec 400 status); [by eexists|lia].
  - right. destruct (try_body_located _ _ _ _ Hloc) as [_ ->].
    rewrite fetch_planes_result, Hreq. by eexists.
  - right. destruct (try_body_located _ _ _ _ Hloc) as [_ ->].
    rewrite fetch_planes_result, Hreq. by eexists.
  - right. destruct (try_body_located _ _ _ _ Hloc) as [_ ->].
    rewrite fetch_planes_result, Hreq. simpl.
    destruct (400 <=? status)%Z; by eexists.
Qed.

(** C2: [_async_update_data] never raises.  In every failure mode (the
    entity is not found, it lacks a latitude or a longitude, the response
    has an HTTP error status, the request times out, the request or the
    JSON parse raises) and for any exception of the [try] block, it returns
    the empty list; so the cycle counts as successful and the listeners are
    called. *)
Theorem update_never_raises self hass previous_update_success :
  (∃ planes, result (sensor._async_update_data self hass) = Returned planes)
  ∧ (failure_mode self hass →
       result (sensor._async_update_data self hass) = Returned [])
  ∧ (∀ err, result (sensor.try_body self hass) = Raised err →
       result (sensor._async_update_data self hass) = Returned [])
  ∧ sensor.last_update_success
      (sensor.async_refresh self hass previous_update_success) = true
  ∧ sensor.listeners_called
      (sensor.async_refresh self hass previous_update_success) = true
  ∧ ∃ planes,
      result (sensor._async_update_data self hass) = Returned planes
      ∧ sensor.data
          (sensor.after (sensor.async_refresh self hass previous_update_success))
        = Some planes.
Proof.
  assert (∃ planes, result (sensor._async_update_data self hass) = Returned planes)
    as [planes Hplanes].
  { rewrite update_result. destruct (result (sensor.try_body self hass)); by eexists. }
  split; [by eexists|]. split; [|split].
  - intros Hfail. rewrite update_result.
    by destruct (failure_mode_try_body _ _ Hfail) as [->|[err ->]].
  - intros err Herr. by rewrite update_result, Herr.
  - unfold sensor.async_refresh. rewrite Hplanes. repeat split. by exists planes.
Qed.

(** C6: on a cycle in which the location entity resolves to a latitude
    [lat] and a longitude [lon], the coordinator issues exactly one GET, to
    the ADSB.fi URL with [lat], [lon] and the configured distance in its
    path, under a timeout of 10 seconds. *)
Theorem one_get_when_located self hass lat lon :
  located self hass lat lon →
  List.filter is_get (trace (sensor._async_update_data self hass)) =
    [HttpGet ("https://opendata.adsb.fi/api/v3/lat/" +:+ format lat
              +:+ "/lon/" +:+ format lon
              +:+ "/dist/" +:+ format (sensor._distance self)) 10].
Proof.
  intros Hloc. rewrite update_trace, List.filter_app.
  destruct (try_body_located _ _ _ _ Hloc) as [-> _].
  rewrite fetch_planes_gets.
  by destruct (result (sensor.try_body self hass)).
Qed.

(** X20: without a resolved location (the entity is not registered, or one
    of its coordinates is missing or [None]) a cycle makes no request. *)
Lemma no_get_when_not_located self hass :
  (∀ lat lon, ¬ located self hass lat lon) →
  List.filter is_get (trace (sensor._async_update_data self hass)) = [].
Proof.
  intros Hno. rewrite update_trace, List.filter_app.
  assert (List.filter is_get (trace (sensor.try_body self hass)) = []) as ->.
  { unfold sensor.try_body.
    destruct (states_get hass _) as [[st|]|] eqn:Hst; try done.
    unfold mbind, io_bind, lift. cbn [result trace app].
    destruct (py_get (attributes st) "latitude") eqn:Hlat;
      destruct (py_get (attributes st) "longitude") eqn:Hlon; try done;
      by (exfalso; eapply Hno; exists st; split; [done|];
          split; [exact Hlat|]; split; [exact Hlon|]). }
  by destruct (result (sensor.try_body self hass)).
Qed.

(** C10: when the JSON body has no ['ac'] key, or a null or otherwise falsy
    ['ac'], the cycle returns the empty list without an error; the
    normalization pass runs over the elements of a truthy ['ac'] array, and
    of nothing else. *)
Theorem falsy_ac_gives_empty self hass lat lon status (d : pydict) :
  located self hass lat lon →
  request_of self hass lat lon = HttpResponse status (Returned (VDict d)) →
  (status < 400)%Z →
  (d !! "ac" = None ∨ (∃ v, d !! "ac" = Some v ∧ truthy v = false) →
     result (sensor.try_body self hass) = Returned []
     ∧ result (sensor._async_update_data self hass) = Returned []
     ∧ List.filter is_error (trace (sensor._async_update_data self hass)) = [])
  ∧ (∀ l, d !! "ac" = Some (VList l) → truthy (VList l) = true →
       result (sensor.try_body self hass) = mapM sensor.normalize_plane_obj l)
  ∧ (∀ v, d !! "ac" = Some v → truthy v = true → (∀ l, v ≠ VList l) →
       result (sensor._async_update_data self hass) = Returned []).
Proof.
  intros Hloc Hreq Hstatus.
  destruct (try_body_located _ _ _ _ Hloc) as [Htr Hres].
  assert (result (sensor.try_body self hass) =
            (items ← py_iter (py_or (py_get_default d "ac" (VList [])) (VList []));
             mapM sensor.normalize_plane_obj items)) as Hbody.
  { rewrite Hres, fetch_planes_result, Hreq. simpl.
    by destruct (Z.leb_spec 400 status); [lia|]. }
  split; [|split].
  - intros Hac.
    assert (result (sensor.try_body self hass) = Returned []) as Hnil.
    { rewrite Hbody. unfold py_get_default, py_or.
      destruct Hac as [->|(v & -> & Hv)]; simpl; [done|]. by rewrite Hv. }
    split; [done|]. split; [by rewrite update_result, Hnil|].
    rewrite update_trace, Hnil, app_nil_r, Htr.
    apply (fetch_planes_no_error _ _ _ _ []). by rewrite <- Hres.
  - intros l Hl Htruthy. rewrite Hbody. unfold py_get_default, py_or.
    rewrite Hl. simpl default. by rewrite Htruthy.
  - intros v Hv Htruthy Hnl. rewrite update_result, Hbody.
    unfold py_get_default, py_or. rewrite Hv. simpl default. rewrite Htruthy.
    destruct v as [| | | |s|l|d']; simpl; try done.
    + by destruct s.
    + by destruct (Hnl l).
    + simpl in Htruthy. unfold size, map_size in Htruthy.
      by destruct (map_to_list d') as [|[k w] kws].
Qed.

End coordinator.

(** ** The count sensor *)

Lemma filter_airborne_count (planes : list pydict) :
  length (List.filter (λ p, negb (truthy (py_get p "on_ground"))) planes)
  = airborne_count planes.
Proof.
  induction planes as [|p planes IH]; [done|]. simpl.
  destruct (truthy (py_get p "on_ground")); simpl; by rewrite IH.
Qed.

(** C4: [native_value] is the number of planes of the snapshot whose
    ['on_ground'] is falsy; [extra_state_attributes] gives the length of
    the snapshot as ['total_planes'] and the snapshot itself as ['planes'];
    a snapshot that is [None] counts as the empty list. *)
Theorem sensor_counts_airborne (coordinator : sensor.PlanesCoordinator) :
  sensor.native_value coordinator = airborne_count (snapshot coordinator)
  ∧ sensor.extra_state_attributes coordinator !! "total_planes"
      = Some (VInt (Z.of_nat (length (snapshot coordinator))))
  ∧ sensor.extra_state_attributes coordinator !! "planes"
      = Some (VList (VDict <$> snapshot coordinator))
  ∧ (sensor.data coordinator = None →
       sensor.native_value coordinator = 0
       ∧ sensor.extra_state_attributes coordinator !! "total_planes"
           = Some (VInt 0)
       ∧ sensor.extra_state_attributes coordinator !! "planes"
           = Some (VList [])).
Proof.
  unfold sensor.native_value, sensor.extra_state_attributes, snapshot.
  destruct (sensor.data coordinator) as [planes|]; simpl default.
  - rewrite filter_airborne_count. by repeat split.
  - by repeat split.
Qed.

(** ** The map markers *)

Lemma snapshot_default coordinator :
  default [] (sensor.data coordinator) = snapshot coordinator.
Proof. unfold snapshot. by destruct (sensor.data coordinator). Qed.

Lemma find_is_Some {A} (f : A → bool) (l : list A) :
  (∃ x, List.find f l = Some x) ↔ ∃ x, x ∈ l ∧ f x = true.
Proof.
  split.
  - intros [x Hx]. exists x. apply List.find_some in Hx as [Hin Hf].
    by rewrite list_elem_of_In.
  - intros (x & Hin & Hf). destruct (List.find f l) as [y|] eqn:Hfind; [by eexists|].
    apply list_elem_of_In in Hin.
    by rewrite (List.find_none _ _ Hfind x Hin) in Hf.
Qed.

(** C5: an entity is available exactly when some plane of the current
    snapshot has a ['hex'] equal to its [hex_id]; when there is none, its
    latitude, longitude and state are [None]. *)
Theorem available_iff_in_snapshot (self : geo_location.PlaneGeoLocation)
    (coordinator : sensor.PlanesCoordinator) :
  (geo_location.available self coordinator = true ↔
     ∃ p, p ∈ snapshot coordinator
       ∧ py_eq (py_get p "hex") (geo_location.hex_id self) = true)
  ∧ (∀ h, geo_location.hex_id self = VStr h →
       (geo_location.available self coordinator = true ↔
          ∃ p, p ∈ snapshot coordinator ∧ p !! "hex" = Some (VStr h)))
  ∧ (geo_location.available self coordinator = false →
       geo_location.latitude self coordinator = VNone
       ∧ geo_location.longitude self coordinator = VNone
       ∧ geo_location.state self coordinator = VNone).
Proof.
  assert (geo_location.available self coordinator = true ↔
     ∃ p, p ∈ snapshot coordinator
       ∧ py_eq (py_get p "hex") (geo_location.hex_id self) = true) as Havail.
  { unfold geo_location.available, geo_location._plane.
    rewrite snapshot_default, <- find_is_Some.
    destruct (List.find _ _); split; try done; [by eexists|by intros [? ?]]. }
  split; [done|]. split.
  - intros h Hh. rewrite Havail, Hh.
    apply exist_proper. intros p. rewrite py_eq_str.
    by rewrite py_get_Some_not_None.
  - unfold geo_location.available, geo_location.latitude,
      geo_location.longitude, geo_location.state.
    by destruct (geo_location._plane self coordinator).
Qed.

Lemma py_eq_str_l t v : py_eq (VStr t) v = true ↔ v = VStr t.
Proof.
  destruct v; simpl; try (split; [discriminate|by intros [=]]).
  rewrite String.eqb_eq. split; [by intros ->|by intros [=]].
Qed.

Lemma existsb_py_eq_str h (l : list value) :
  existsb (py_eq (VStr h)) l = true ↔ VStr h ∈ l.
Proof.
  rewrite List.existsb_exists, list_elem_of_In. split.
  - intros (v & Hin & Heq). by apply py_eq_str_l in Heq as ->.
  - intros Hin. exists (VStr h). split; [done|]. by apply py_eq_str_l.
Qed.

Lemma truthy_str_true h : truthy (VStr h) = true ↔ h ≠ EmptyString.
Proof. destruct h; simpl; split; by try discriminate. Qed.

Lemma py_get_str d k h : py_get d k = VStr h ↔ d !! k = Some (VStr h).
Proof. by apply py_get_Some_not_None. Qed.

#[local] Arguments py_eq : simpl never.

Section markers.
Context {objects : Identity}.

(** A string is found in a set by [==] alone: an object identical to it
    is equal to it. *)
Lemma existsb_is_or_eq_str h (s : list value) :
  existsb (λ e, py_is (VStr h) e || py_eq (VStr h) e) s
  = existsb (py_eq (VStr h)) s.
Proof.
  induction s as [|e s IH]; [done|]. cbn [existsb]. rewrite IH. f_equal.
  destruct (py_is (VStr h) e) eqn:Hsame; [|done].
  apply py_is_same in Hsame as <-. cbn [orb]. symmetry. by apply py_eq_str_l.
Qed.

(** The loop adds one entity for each non-empty identifier of the snapshot
    that is not in [existing_hexes], once. *)
Lemma scan_spec planes : ∀ existing new,
  Forall hex_typed planes →
  ∃ added,
    geo_location.scan planes existing new = Returned (new ++ added)
    ∧ Forall str_entity added
    ∧ (NoDup existing → NoDup (existing ++ (geo_location.hex_id <$> added)))
    ∧ ∀ v, v ∈ geo_location.hex_id <$> added ↔
        (v ∉ existing)
        ∧ ∃ h p, v = VStr h ∧ h ≠ EmptyString ∧ p ∈ planes
            ∧ p !! "hex" = Some (VStr h).
Proof.
  induction planes as [|p planes IH]; intros existing new Htyped.
  { exists []. simpl. rewrite !app_nil_r.
    split; [done|]. split; [done|]. split; [done|]. intros v. split.
    - by intros ?%elem_of_nil.
    - intros [_ (h & q & _ & _ & ?%elem_of_nil & _)]. done. }
  apply Forall_cons in Htyped as [Hp Htyped].
  assert (∀ h, h ≠ EmptyString → p !! "hex" = Some (VStr h) →
            truthy (py_get p "hex") = true ∧ py_get p "hex" = VStr h) as Hhit.
  { intros h Hh Hhex. apply py_get_str in Hhex. rewrite Hhex.
    split; [by apply truthy_str_true|done]. }
  (* the plane is skipped: the entities are those of the rest *)
  assert (geo_location.scan (p :: planes) existing new
            = geo_location.scan planes existing new →
          (∀ h, h ≠ EmptyString → p !! "hex" = Some (VStr h) → VStr h ∈ existing) →
          ∃ added,
            geo_location.scan (p :: planes) existing new = Returned (new ++ added)
            ∧ Forall str_entity added
            ∧ (NoDup existing → NoDup (existing ++ (geo_location.hex_id <$> added)))
            ∧ ∀ v, v ∈ geo_location.hex_id <$> added ↔
                (v ∉ existing)
                ∧ ∃ h q, v = VStr h ∧ h ≠ EmptyString ∧ q ∈ p :: planes
                    ∧ q !! "hex" = Some (VStr h)) as Hskip.
  { intros -> Hin.
    destruct (IH existing new Htyped) as (added & Hscan & Hstr & Hnd & Hmem).
    exists added. repeat split; try done.
    - by apply Hmem.
    - apply Hmem in H as [_ (h & q & ? & ? & ? & ?)].
      exists h, q. repeat split; try done. by apply elem_of_cons; right.
    - intros [Hv (h & q & -> & Hh & [->|Hq]%elem_of_cons & Hhex)].
      + by destruct Hv; apply Hin.
      + apply Hmem. split; [done|]. by exists h, q. }
  destruct Hp as [Hnone|[h Hh]].
  { apply Hskip.
    - simpl. by rewrite Hnone.
    - intros h _ Hhex%py_get_str. by rewrite Hnone in Hhex. }
  destruct (decide (h = EmptyString)) as [->|Hne].
  { apply Hskip.
    - simpl. by rewrite Hh.
    - intros h Hne Hhex%py_get_str. rewrite Hh in Hhex. by injection Hhex as <-. }
  destruct (existsb (py_eq (VStr h)) existing) eqn:Hex.
  { apply Hskip.
    - simpl. rewrite Hh. rewrite (proj2 (truthy_str_true h) Hne). simpl.
      by rewrite existsb_is_or_eq_str, Hex.
    - intros h' _ Hhex%py_get_str. rewrite Hh in Hhex. injection Hhex as <-.
      by apply existsb_py_eq_str. }
  assert (VStr h ∉ existing) as Hfresh.
  { intros Hin%existsb_py_eq_str. by rewrite Hin in Hex. }
  destruct (IH (existing ++ [VStr h])
              (new ++ [{| geo_location.hex_id := VStr h |}]) Htyped)
    as (added & Hscan & Hstr & Hnd & Hmem).
  exists ({| geo_location.hex_id := VStr h |} :: added). split; [|split; [|split]].
  - simpl. rewrite Hh. rewrite (proj2 (truthy_str_true h) Hne). simpl.
    rewrite existsb_is_or_eq_str, Hex. simpl.
    by rewrite Hscan, <- app_assoc.
  - apply Forall_cons. split; [by exists h|done].
  - intros Hndex. rewrite fmap_cons. simpl.
    rewrite cons_middle, (assoc_L (++)). apply Hnd.
    apply NoDup_app. repeat split; [done| |apply NoDup_singleton].
    intros v Hv ->%list_elem_of_singleton. done.
  - intros v. rewrite fmap_cons, elem_of_cons, Hmem. simpl. split.
    + intros [->|[Hv (h' & q & -> & Hh' & Hq & Hhex)]].
      * split; [done|]. exists h, p. repeat split; try done.
        -- by apply elem_of_cons; left.
        -- by apply py_get_str.
      * split; [by intros ?; apply Hv, elem_of_app; left|].
        exists h', q. repeat split; try done. by apply elem_of_cons; right.
    + intros [Hv (h' & q & -> & Hh' & Hq & Hhex)].
      destruct (decide (h' = h)) as [->|Hdiff]; [by left|]. right. split.
      * intros [?|[=]%list_elem_of_singleton]%elem_of_app; done.
      * apply elem_of_cons in Hq as [->|Hq].
        -- apply py_get_str in Hhex. rewrite Hh in Hhex. by injection Hhex.
        -- by exists h', q.
Qed.

Lemma str_entities_hashable entities :
  Forall str_entity entities →
  geo_location.py_set (geo_location.hex_id <$> entities)
  = Returned (geo_location.hex_id <$> entities).
Proof.
  intros Hstr. unfold geo_location.py_set.
  assert (forallb hashable (geo_location.hex_id <$> entities) = true) as ->; [|done].
  induction Hstr as [|e entities (h & Hh & _) _ IH]; [done|].
  rewrite fmap_cons. simpl. by rewrite Hh.
Qed.

Lemma str_in_dec h (l : list value) : VStr h ∈ l ∨ VStr h ∉ l.
Proof.
  destruct (existsb (py_eq (VStr h)) l) eqn:Hex.
  - left. by apply existsb_py_eq_str.
  - right. intros Hin%existsb_py_eq_str. by rewrite Hin in Hex.
Qed.

Lemma update_entities_spec entities coordinator :
  Forall str_entity entities →
  NoDup (geo_location.hex_id <$> entities) →
  Forall hex_typed (snapshot coordinator) →
  ∃ added,
    geo_location._update_entities entities coordinator
      = Returned (entities ++ added, added)
    ∧ Forall str_entity (entities ++ added)
    ∧ NoDup (geo_location.hex_id <$> (entities ++ added))
    ∧ ∀ v, v ∈ geo_location.hex_id <$> (entities ++ added) ↔
        v ∈ geo_location.hex_id <$> entities
        ∨ ∃ h p, v = VStr h ∧ h ≠ EmptyString ∧ p ∈ snapshot coordinator
            ∧ p !! "hex" = Some (VStr h).
Proof.
  intros Hstr Hnd Htyped.
  destruct (scan_spec (snapshot coordinator)
              (geo_location.hex_id <$> entities) [] Htyped)
    as (added & Hscan & Hadded & Hnd' & Hmem).
  exists added. split; [|split; [|split]].
  - unfold geo_location._update_entities.
    rewrite (str_entities_hashable _ Hstr), snapshot_default. simpl.
    by rewrite Hscan.
  - by apply Forall_app.
  - rewrite fmap_app. by apply Hnd'.
  - intros v. rewrite fmap_app, elem_of_app, Hmem. split.
    + intros [?|[_ ?]]; [by left|by right].
    + intros [?|(h & q & -> & Hrest)]; [by left|].
      destruct (str_in_dec h (geo_location.hex_id <$> entities)); [by left|].
      right. split; [done|]. by exists h, q.
Qed.

Lemma entities_after_snoc snapshots coordinator :
  geo_location.entities_after (snapshots ++ [coordinator])
  = geo_location.listener (geo_location.entities_after snapshots) coordinator.
Proof. unfold geo_location.entities_after. by rewrite foldl_app. Qed.

Lemma entities_after_inv snapshots :
  hexes_typed snapshots →
  Forall str_entity (geo_location.entities_after snapshots)
  ∧ NoDup (geo_location.hex_id <$> geo_location.entities_after snapshots)
  ∧ ∀ v, v ∈ geo_location.hex_id <$> geo_location.entities_after snapshots ↔
      ∃ h, v = VStr h ∧ h ≠ EmptyString ∧ seen snapshots h.
Proof.
  induction snapshots as [|c snapshots IH] using rev_ind; intros Htyped.
  { repeat split; try by constructor.
    - by intros ?%elem_of_nil.
    - intros (h & _ & _ & c & p & ?%elem_of_nil & _). done. }
  apply Forall_app in Htyped as [Htyped [Hc _]%Forall_cons].
  destruct (IH Htyped) as (Hstr & Hnd & Hmem).
  destruct (update_entities_spec _ c Hstr Hnd Hc)
    as (added & Hupd & Hstr' & Hnd' & Hmem').
  rewrite entities_after_snoc. unfold geo_location.listener. rewrite Hupd.
  simpl. split; [done|]. split; [done|]. intros v. rewrite Hmem', Hmem.
  unfold seen. split.
  - intros [(h & -> & Hh & c' & p & Hc' & Hp)|(h & p & -> & Hh & Hp & Hhex)].
    + exists h. repeat split; try done. exists c', p.
      split; [by apply elem_of_app; left|done].
    + exists h. repeat split; try done. exists c, p.
      split; [by apply elem_of_app; right; apply list_elem_of_singleton|done].
  - intros (h & -> & Hh & c' & p & [Hc'|Hc']%elem_of_app & Hp & Hhex).
    + left. exists h. repeat split; try done. by exists c', p.
    + apply list_elem_of_singleton in Hc' as ->. right. by exists h, p.
Qed.

(** C3, as amended: as the coordinator goes through snapshots whose
    identifiers are strings (or [None]), the entities are keyed by
    identifier and only grow: after the initial call and after every listener call there is
    exactly one entity for each distinct non-empty ['hex'] that has appeared
    in a snapshot so far; each call returns, keeps the entities it found and
    appends the new ones. *)
Theorem entities_one_per_hex (snapshots : list sensor.PlanesCoordinator) :
  hexes_typed snapshots →
  NoDup (geo_location.hex_id <$> geo_location.entities_after snapshots)
  ∧ (∀ v, v ∈ geo_location.hex_id <$> geo_location.entities_after snapshots ↔
       ∃ h, v = VStr h ∧ h ≠ EmptyString ∧ seen snapshots h)
  ∧ (∀ before coordinator, before ++ [coordinator] `prefix_of` snapshots →
       ∃ added,
         geo_location._update_entities
           (geo_location.entities_after before) coordinator
         = Returned (geo_location.entities_after (before ++ [coordinator]), added)
         ∧ geo_location.entities_after (before ++ [coordinator])
           = geo_location.entities_after before ++ added)
  ∧ (∀ before, before `prefix_of` snapshots →
       geo_location.entities_after before
         `prefix_of` geo_location.entities_after snapshots).
Proof.
  intros Htyped.
  destruct (entities_after_inv _ Htyped) as (_ & Hnd & Hmem).
  split; [done|]. split; [done|].
  assert (∀ before coordinator, hexes_typed (before ++ [coordinator]) →
       ∃ added,
         geo_location._update_entities
           (geo_location.entities_after before) coordinator
         = Returned (geo_location.entities_after (before ++ [coordinator]), added)
         ∧ geo_location.entities_after (before ++ [coordinator])
           = geo_location.entities_after before ++ added) as Hstep.
  { intros before c [Hbefore [Hc _]%Forall_cons]%Forall_app.
    destruct (entities_after_inv _ Hbefore) as (Hstr & Hnd0 & _).
    destruct (update_entities_spec _ c Hstr Hnd0 Hc) as (added & Hupd & _).
    exists added. rewrite entities_after_snoc. unfold geo_location.listener.
    by rewrite Hupd. }
  split.
  - intros before c [rest ->]. apply Hstep.
    by apply Forall_app in Htyped as [? _].
  - intros before [rest ->]. clear Hnd Hmem.
    induction rest as [|c rest IH] using rev_ind.
    + by rewrite app_nil_r.
    + rewrite (assoc_L (++)) in Htyped |- *.
      destruct (Hstep _ c Htyped) as (added & _ & ->).
      etrans; [apply IH|by apply prefix_app_r].
      by apply Forall_app in Htyped as [? _].
Qed.

End markers.

(** C3 as stated fails: when the identifier [abc123] comes in a snapshot
    with a ['hex'] that cannot be hashed, the listener raises [TypeError]
    at the membership test and [abc123] has appeared without an entity. *)
Lemma entities_unhashable_hex :
  seen [sample_unhashable] "abc123"
  ∧ geo_location._update_entities (objects := sample_objects) []
      sample_unhashable
    = Raised TypeError
  ∧ geo_location.entities_after (objects := sample_objects) [sample_unhashable]
    = [].
Proof.
  split; [|by split].
  exists sample_unhashable, {[ "hex" := VStr "abc123" ]}.
  split; [apply list_elem_of_here|].
  split; [apply list_elem_of_here|apply lookup_singleton_eq].
Qed.

(** ** The setup wizard *)

Section wizard.
Context `{!Const}.
Import homeassistant.

Lemma attributes_or_empty (d : pydict) :
  (if truthy (VDict d) then d else ∅) = d.
Proof.
  simpl. destruct (Nat.eqb_spec (size d) 0) as [Hz|]; [|done].
  symmetry. by apply map_size_empty_iff.
Qed.

#[local] Arguments truthy : simpl never.

Lemma validate_valid hass id :
  valid_location hass id →
  config_flow._validate_location_entity hass (VStr id) = Returned tt.
Proof.
  intros (st & Hst & Hlat & Hlon). unfold config_flow._validate_location_entity.
  simpl. rewrite Hst, attributes_or_empty.
  rewrite !bool_decide_eq_true_2; [done|by apply elem_of_dom..].
Qed.

Lemma validate_invalid hass id :
  ¬ valid_location hass id →
  config_flow._validate_location_entity hass (VStr id)
  = Raised InvalidLocationEntity.
Proof.
  intros Hno. unfold config_flow._validate_location_entity. simpl.
  destruct (states hass id) as [st|] eqn:Hst; [|done].
  rewrite attributes_or_empty.
  destruct (bool_decide_reflect ("latitude" ∈ dom (attributes st))) as [Hlat|];
    [|done].
  destruct (bool_decide_reflect ("longitude" ∈ dom (attributes st))) as [Hlon|];
    [|done].
  destruct Hno. exists st. by rewrite <- !elem_of_dom.
Qed.

Lemma valid_location_dec hass id : valid_location hass id ∨ ¬ valid_location hass id.
Proof.
  destruct (config_flow._validate_location_entity hass (VStr id)) as [[]|e] eqn:Hv.
  - left. unfold config_flow._validate_location_entity in Hv. simpl in Hv.
    destruct (states hass id) as [st|] eqn:Hst; [|done].
    rewrite attributes_or_empty in Hv. exists st. split; [done|].
    rewrite <- !elem_of_dom.
    destruct (bool_decide_reflect ("latitude" ∈ dom (attributes st))); [|done].
    by destruct (bool_decide_reflect ("longitude" ∈ dom (attributes st))).
  - right. intros Hvalid. by rewrite (validate_valid _ _ Hvalid) in Hv.
Qed.

(** C7: at initial configuration and on an options edit, for an input that
    passed the form's schema, an entry is created exactly when the referenced
    entity exists in the state registry and its attributes contain both
    ['latitude'] and ['longitude']; otherwise [_validate_location_entity]
    raises [InvalidLocationEntity] and the step shows its form again with
    the error ['invalid_entity'], creating no entry. *)
Theorem wizard_validates_location hass config_entry (user_input : pydict)
    (entity_id : string) (distance : value) :
  user_input !! CONF_LOCATION_ENTITY_ID = Some (VStr entity_id) →
  user_input !! CONF_DISTANCE = Some distance →
  ((∃ title d, config_flow.async_step_user hass (Some user_input)
                 = Returned (config_flow.create_entry title d))
     ↔ valid_location hass entity_id)
  ∧ ((∃ title d, config_flow.async_step_init hass config_entry (Some user_input)
                 = Returned (config_flow.create_entry title d))
     ↔ valid_location hass entity_id)
  ∧ (valid_location hass entity_id →
       config_flow._validate_location_entity hass (VStr entity_id) = Returned tt)
  ∧ (¬ valid_location hass entity_id →
       config_flow._validate_location_entity hass (VStr entity_id)
         = Raised InvalidLocationEntity
       ∧ config_flow.async_step_user hass (Some user_input)
         = Returned (config_flow.show_form "user" config_flow.user_schema
                       invalid_entity_errors)
       ∧ config_flow.async_step_init hass config_entry (Some user_input)
         = Returned (config_flow.show_form "init"
                       (config_flow.init_schema config_entry)
                       invalid_entity_errors)).
Proof.
  intros Hid Hdist.
  assert (valid_location hass entity_id →
          (∃ title d, config_flow.async_step_user hass (Some user_input)
                 = Returned (config_flow.create_entry title d))
          ∧ (∃ title d, config_flow.async_step_init hass config_entry (Some user_input)
                 = Returned (config_flow.create_entry title d))) as Hok.
  { intros Hvalid. unfold config_flow.async_step_user, config_flow.async_step_init,
      py_index. rewrite Hid, Hdist. simpl.
    rewrite (validate_valid _ _ Hvalid). simpl. split; by eexists _, _. }
  assert (¬ valid_location hass entity_id →
       config_flow.async_step_user hass (Some user_input)
         = Returned (config_flow.show_form "user" config_flow.user_schema
                       invalid_entity_errors)
       ∧ config_flow.async_step_init hass config_entry (Some user_input)
         = Returned (config_flow.show_form "init"
                       (config_flow.init_schema config_entry)
                       invalid_entity_errors)) as Hbad.
  { intros Hinvalid. unfold config_flow.async_step_user, config_flow.async_step_init,
      py_index. rewrite Hid, Hdist. simpl.
    by rewrite (validate_invalid _ _ Hinvalid). }
  split; [|split; [|split]].
  - split; [|by intros [? _]%Hok].
    intros (title & d & Hcreated).
    destruct (valid_location_dec hass entity_id) as [|Hinvalid]; [done|].
    apply Hbad in Hinvalid as [Hform _]. by rewrite Hform in Hcreated.
  - split; [|by intros [_ ?]%Hok].
    intros (title & d & Hcreated).
    destruct (valid_location_dec hass entity_id) as [|Hinvalid]; [done|].
    apply Hbad in Hinvalid as [_ Hform]. by rewrite Hform in Hcreated.
  - apply validate_valid.
  - intros Hinvalid. split; [by apply validate_invalid|by apply Hbad].
Qed.

End wizard.

(** ** Platform setup *)

Section setup.
Context `{!Const}.
Import homeassistant.

Lemma get_options_then_data entry k fallback :
  py_get_default (options entry) k (py_get_default (data entry) k fallback)
  = options_then_data entry k fallback.
Proof.
  unfold py_get_default, options_then_data.
  by destruct (options entry !! k), (data entry !! k).
Qed.

Lemma step_init_created hass entry (user_input : pydict) title d loc dist :
  user_input !! CONF_LOCATION_ENTITY_ID = Some loc →
  user_input !! CONF_DISTANCE = Some dist →
  config_flow.async_step_init hass entry (Some user_input)
    = Returned (config_flow.create_entry title d) →
  d = <[CONF_DISTANCE := dist]> (<[CONF_LOCATION_ENTITY_ID := loc]> ∅).
Proof.
  intros Hloc Hdist. unfold config_flow.async_step_init, py_index.
  rewrite Hloc, Hdist. simpl.
  destruct (config_flow._validate_location_entity hass loc) as [[]|[]];
    simpl; by intros [=].
Qed.

(** C9: in the setup of the sensor platform and of the geolocation platform
    the location entity id and the distance come from the entry's options
    when present there and from its initial data otherwise, the distance
    being 25.0 when it is in neither; so the values of an options edit
    replace those of the initial configuration. *)
Theorem setup_prefers_options entry hass (user_input : pydict) title d loc dist :
  CONF_LOCATION_ENTITY_ID ≠ CONF_DISTANCE →
  (sensor._location_entity_id (sensor.async_setup_entry entry).1
     = options_then_data entry CONF_LOCATION_ENTITY_ID VNone
   ∧ sensor._distance (sensor.async_setup_entry entry).1
     = options_then_data entry CONF_DISTANCE (VFloat float_25))
  ∧ (sensor._location_entity_id (geo_location.async_setup_entry entry)
     = options_then_data entry CONF_LOCATION_ENTITY_ID VNone
   ∧ sensor._distance (geo_location.async_setup_entry entry)
     = options_then_data entry CONF_DISTANCE (VFloat float_25))
  ∧ (user_input !! CONF_LOCATION_ENTITY_ID = Some loc →
     user_input !! CONF_DISTANCE = Some dist →
     config_flow.async_step_init hass entry (Some user_input)
       = Returned (config_flow.create_entry title d) →
     sensor.async_setup_entry
       (config_flow.apply_options entry (config_flow.create_entry title d))
       = ({| sensor._location_entity_id := loc; sensor._distance := dist;
             sensor.data := None |},
          (sensor.async_setup_entry entry).2)
     ∧ geo_location.async_setup_entry
         (config_flow.apply_options entry (config_flow.create_entry title d))
       = {| sensor._location_entity_id := loc; sensor._distance := dist;
            sensor.data := None |}).
Proof.
  intros Hkeys. split; [|split].
  - unfold sensor.async_setup_entry. simpl.
    by rewrite <- !get_options_then_data.
  - unfold geo_location.async_setup_entry. simpl.
    by rewrite <- !get_options_then_data.
  - intros Hloc Hdist Hstep.
    rewrite (step_init_created _ _ _ _ _ _ _ Hloc Hdist Hstep).
    unfold sensor.async_setup_entry, geo_location.async_setup_entry,
      py_get_default, py_get. simpl.
    rewrite lookup_insert_eq, lookup_insert_ne, lookup_insert_eq by done.
    done.
Qed.

End setup.

(** ** The theorems at the sample installation *)

(** The sample record: its callsign is trimmed, it is on the ground, and its
    ground speed is read from ['gs']. *)
Lemma normalize_plane_fields_sample :
  ∃ r, sensor.normalize_plane sample_record = Returned r
    ∧ (∃ t, whitespace_trimmed "FIN5LA  " t
         ∧ r !! "flight" = Some (if decide (t = EmptyString) then VNone else VStr t))
    ∧ r !! "on_ground" = Some (VBool true)
    ∧ r !! "ground_speed" = Some (VInt 12).
Proof.
  destruct (normalize_plane_fields sample_record)
    as (r & Hr & Hflight & _ & (b & Hb & Hground) & Hrenamed & _).
  { right. right. by eexists. }
  exists r. split; [done|]. split; [by apply Hflight|]. split.
  - rewrite Hb. do 2 f_equal. by apply Hground.
  - exact (Forall_lookup_1 _ _ 2 ("ground_speed", "gs") Hrenamed eq_refl).
Defined.

(** The sample record gives 22 keys; ['nav_modes'] and ['squawk'], absent
    from it, take their defaults. *)
Lemma normalize_plane_keys_sample :
  ∃ r, sensor.normalize_plane sample_record = Returned r
    ∧ size (dom r) = 22
    ∧ r !! "nav_modes" = Some (VList [])
    ∧ r !! "squawk" = Some VNone.
Proof.
  destruct (normalize_plane_keys sample_record) as (r & Hr & _ & Hsize & Habsent).
  { right. right. by eexists. }
  exists r. split; [done|]. split; [done|]. split.
  - exact (Forall_lookup_1 _ _ 20 ("nav_modes", "nav_modes") Habsent eq_refl eq_refl).
  - exact (Forall_lookup_1 _ _ 13 ("squawk", "squawk") Habsent eq_refl eq_refl).
Defined.

(** The sample coordinator is located at [zone.home]. *)
Lemma sample_located :
  located (sample_coordinator None) (sample_hass VNone) (VInt 60) (VInt 25).
Proof. exists sample_home. by repeat split. Qed.

(** The one request of a cycle of the sample coordinator. *)
Lemma one_get_when_located_sample :
  List.filter is_get
    (trace (sensor._async_update_data (H := sample_format)
              (sample_coordinator None) (sample_hass VNone)))
  = [HttpGet "https://opendata.adsb.fi/api/v3/lat/60/lon/25/dist/25" 10].
Proof.
  exact (one_get_when_located (H := sample_format)
           (sample_coordinator None) (sample_hass VNone) (VInt 60) (VInt 25)
           sample_located).
Defined.

(** A body whose ['ac'] is null gives the empty snapshot. *)
Lemma falsy_ac_gives_empty_sample :
  result (sensor._async_update_data (H := sample_format)
            (sample_coordinator None)
            (sample_hass (VDict {[ "ac" := VNone ]})))
  = Returned [].
Proof.
  destruct (falsy_ac_gives_empty (H := sample_format)
              (sample_coordinator None)
              (sample_hass (VDict {[ "ac" := VNone ]}))
              (VInt 60) (VInt 25) 200 {[ "ac" := VNone ]})
    as [Hfalsy _].
  - exists sample_home. by repeat split.
  - reflexivity.
  - lia.
  - apply Hfalsy. right. exists VNone. by split.
Defined.

(** Three snapshots in which two identifiers appear, one of them twice, give
    two entities. *)
Lemma entities_one_per_hex_sample :
  geo_location.hex_id <$> geo_location.entities_after (objects := sample_objects) sample_snapshots
  = [VStr "4601f2"; VStr "a1b2c3"]
  ∧ NoDup (geo_location.hex_id <$> geo_location.entities_after (objects := sample_objects) sample_snapshots).
Proof.
  split; [reflexivity|].
  apply (entities_one_per_hex (objects := sample_objects) sample_snapshots).
  unfold hexes_typed, sample_snapshots, sample_coordinator, snapshot.
  cbn [sensor.data].
  repeat (apply Forall_cons; split); try apply Forall_nil;
    first [done | by left | by right; eexists].
Defined.

(** Both steps create an entry for the existing [zone.home]. *)
Lemma wizard_validates_location_sample :
  (∃ title d, config_flow.async_step_user (H := sample_const)
                (sample_hass VNone) (Some sample_input)
              = Returned (config_flow.create_entry title d))
  ∧ (∃ title d, config_flow.async_step_init (H := sample_const)
                  (sample_hass VNone) sample_entry (Some sample_input)
                = Returned (config_flow.create_entry title d)).
Proof.
  destruct (wizard_validates_location (H := sample_const)
              (sample_hass VNone) sample_entry sample_input "zone.home"
              (VFloat float_25) eq_refl eq_refl)
    as (Huser & Hinit & _).
  assert (valid_location (sample_hass VNone) "zone.home") as Hvalid.
  { exists sample_home. by repeat split. }
  split; [by apply Huser|by apply Hinit].
Defined.

(** Without options the setup takes the values of the initial data. *)
Lemma setup_prefers_options_sample :
  sensor._location_entity_id
    (geo_location.async_setup_entry (H := sample_const) sample_entry)
  = VStr "person.me"
  ∧ sensor._distance
      (geo_location.async_setup_entry (H := sample_const) sample_entry)
    = VInt 10.
Proof.
  destruct (setup_prefers_options (H := sample_const) sample_entry
              (sample_hass VNone) sample_input VNone ∅ VNone VNone)
    as (_ & [Hloc Hdist] & _).
  - by vm_compute.
  - by rewrite Hloc, Hdist.
Defined.

(** ** Further examples *)

Example normalize_plane_sample_flight :
  (r ← sensor.normalize_plane sample_record;
   mret (r !! "flight", r !! "on_ground", r !! "distance"))
  = Returned (Some (VStr "FIN5LA"), Some (VBool true), Some VNone).
Proof. reflexivity. Qed.

Example strip_keeps_inner_spaces : strip "  AY 5 LA  " = "AY 5 LA".
Proof. reflexivity. Qed.

(** Identifiers that are not strings.  A NaN gets an entity that is never
    available, since a NaN is not [==] to itself, while the set finds the
    one NaN object again by identity; and the number [1] and the string
    ["1"] get two entities with one unique id. *)
Example nan_entity_unavailable :
  geo_location.entities_after (objects := sample_objects)
    [sample_coordinator (Some [ {[ "hex" := VFloat S754_nan ]} ]);
     sample_coordinator (Some [ {[ "hex" := VFloat S754_nan ]} ])]
  = [ {| geo_location.hex_id := VFloat S754_nan |} ]
  ∧ geo_location.available {| geo_location.hex_id := VFloat S754_nan |}
      (sample_coordinator (Some [ {[ "hex" := VFloat S754_nan ]} ]))
    = false.
Proof. by split. Qed.

Example number_and_string_share_unique_id :
  geo_location.unique_id (H := sample_format)
    <$> geo_location.entities_after (objects := sample_objects)
          [sample_coordinator
             (Some [ {[ "hex" := VInt 1 ]}; {[ "hex" := VStr "1" ]} ])]
  = ["planes_nearby_1"; "planes_nearby_1"].
Proof. reflexivity. Qed.

(** An entity whose latitude attribute is [None] passes the wizard's check
    of the keys but gives the coordinator no location: the cycle ends with
    the empty list and no request. *)
Example latitude_none_no_request :
  let hass := {| homeassistant.states := λ _,
                   Some {| homeassistant.attributes :=
                             {[ "latitude" := VNone; "longitude" := VInt 25 ]} |};
                 homeassistant.http := λ _, homeassistant.HttpTimeout |} in
  config_flow._validate_location_entity hass (VStr "zone.home") = Returned tt
  ∧ sensor._async_update_data (H := sample_format) (sample_coordinator None) hass
    = IO [LogError "Planes Nearby: entity %s has no latitude/longitude"]
         (Returned []).
Proof. by split. Qed.

(** * Further properties of the code *)

(** ** [str.strip()] *)

Lemma all_space_app l r : all_space (l +:+ r) = all_space l && all_space r.
Proof.
  induction l as [|c l IH]; [done|].
  change (String c l +:+ r) with (String c (l +:+ r)). simpl.
  by rewrite IH, andb_assoc.
Qed.

Lemma lstrip_all_space s : all_space s = true → lstrip s = EmptyString.
Proof.
  induction s as [|c s IH]; [done|]. simpl.
  intros [-> Hs]%andb_true_iff. by apply IH.
Qed.

Lemma strip_empty_iff s : strip s = EmptyString ↔ all_space s = true.
Proof.
  split.
  - intros Hs. destruct (strip_trims s) as (l & r & Heq & Hl & Hr & _).
    rewrite Hs in Heq. change (EmptyString +:+ r) with r in Heq.
    by rewrite Heq, all_space_app, Hl, Hr.
  - intros Hs. unfold strip. by rewrite (lstrip_all_space _ Hs).
Qed.

Lemma lstrip_tight t :
  (∀ c, first_char t = Some c → is_space c = false) → lstrip t = t.
Proof.
  destruct t as [|c t]; [done|]. simpl. intros Hc. by rewrite (Hc c).
Qed.

Lemma rstrip_tight t :
  (∀ c, last_char t = Some c → is_space c = false) → rstrip t = t.
Proof.
  induction t as [|c t IH]; [done|]. intros Hlast. simpl.
  destruct t as [|d t].
  - simpl. by rewrite (Hlast c).
  - rewrite IH; [done|]. intros c' Hc'. by apply Hlast.
Qed.

Lemma strip_tight t : tight t → strip t = t.
Proof.
  intros [Hfirst Hlast]. unfold strip.
  by rewrite (lstrip_tight _ Hfirst), (rstrip_tight _ Hlast).
Qed.

Lemma strip_is_tight s : tight (strip s).
Proof. by destruct (strip_trims s) as (l & r & _ & _ & _ & ? & ?). Qed.

(** Stripping twice is stripping once. *)
Lemma strip_idempotent s : strip (strip s) = strip s.
Proof. apply strip_tight, strip_is_tight. Qed.

(** ** The normalizer, further *)

(** X1: a callsign made of whitespace only (or empty) is normalized to
    [None]; any other callsign to a non-empty string without whitespace at
    its ends. *)
Theorem normalized_flight_blank_iff (p : pydict) (s : string) :
  p !! "flight" = Some (VStr s) →
  ∃ r, sensor.normalize_plane p = Returned r
    ∧ (r !! "flight" = Some VNone ↔ all_space s = true)
    ∧ (all_space s = false →
         r !! "flight" = Some (VStr (strip s))
         ∧ strip s ≠ EmptyString ∧ tight (strip s)).
Proof.
  intros Hs. unfold sensor.normalize_plane.
  rewrite (flight_strip p) by (right; right; by eexists). rewrite Hs.
  eexists. split; [reflexivity|].
  assert (∀ v, py_dict
    [("hex", py_get p "hex"); ("type", py_get p "type"); ("flight", v);
     ("t", py_get p "t"); ("aircraft_type", py_get p "t");
     ("description", py_get p "desc"); ("category", py_get p "category");
     ("lat", py_get p "lat"); ("lon", py_get p "lon");
     ("alt_baro", py_get p "alt_baro"); ("ground_speed", py_get p "gs");
     ("true_heading", py_get p "true_heading");
     ("nav_modes", py_get_default p "nav_modes" (VList []));
     ("on_ground", VBool (py_eq (py_get p "alt_baro") (VStr "ground")));
     ("squawk", py_get p "squawk"); ("emergency", py_get p "emergency");
     ("distance", py_get p "dst"); ("bearing", py_get p "dir");
     ("seen", py_get p "seen"); ("seen_pos", py_get p "seen_pos");
     ("messages", py_get p "messages"); ("rssi", py_get p "rssi")] !! "flight"
    = Some v) as Hflight by (intros v; py_dict_field).
  rewrite !Hflight. unfold py_or.
  destruct (truthy (VStr (strip s))) eqn:Htr.
  - apply truthy_str_true in Htr.
    assert (all_space s = false) as Hsp.
    { destruct (all_space s) eqn:Hsp; [|done]. by apply strip_empty_iff in Hsp. }
    rewrite Hsp. split; [split; by intros [=]|].
    intros _. split; [done|]. split; [done|apply strip_is_tight].
  - apply truthy_str in Htr. pose proof Htr as Hsp. apply strip_empty_iff in Hsp.
    rewrite Hsp. split; [done|]. by intros [=].
Qed.

Lemma obj_strip_Returned v t :
  obj_strip v = Returned t → ∃ s, v = VStr s ∧ t = strip s.
Proof. destruct v; try done. intros [= <-]. by eexists. Qed.

Lemma normalize_plane_shape p r :
  sensor.normalize_plane p = Returned r →
  ∃ s, dom r = list_to_set output_keys
    ∧ r !! "flight" = Some (py_or (VStr (strip s)) VNone)
    ∧ r !! "on_ground"
      = Some (VBool (py_eq (py_get p "alt_baro") (VStr "ground"))).
Proof.
  unfold sensor.normalize_plane.
  destruct (obj_strip _) as [flight|] eqn:Hflight; [|done].
  apply obj_strip_Returned in Hflight as (s & _ & ->).
  intros [= <-]. exists s. split; [by rewrite py_dict_dom|].
  split; py_dict_field.
Qed.

Lemma normalize_plane_normalized p r :
  sensor.normalize_plane p = Returned r → normalized_record r.
Proof.
  intros (s & Hdom & Hflight & Hground)%normalize_plane_shape.
  split; [done|]. split; [by eexists|]. rewrite Hflight. unfold py_or.
  destruct (truthy (VStr (strip s))) eqn:Htr; [|by left].
  right. exists (strip s). split; [done|].
  split; [by apply truthy_str_true|apply strip_is_tight].
Qed.

Lemma mapM_Returned {A B} (f : A → outcome B) l k :
  mapM f l = Returned k ↔ Forall2 (λ x y, f x = Returned y) l k.
Proof.
  revert k. induction l as [|x l IH]; intros k; simpl.
  - split; [intros [= <-]; constructor|by inversion 1].
  - destruct (f x) as [y|e] eqn:Hx; simpl.
    + destruct (mapM f l) as [k'|e] eqn:Hl; simpl.
      * split.
        -- intros [= <-]. constructor; [done|by apply IH].
        -- inversion 1 as [|? y' ? k'' Hy Hk]; subst.
           apply IH in Hk. injection Hk as ->. rewrite Hx in Hy.
           by injection Hy as ->.
      * split; [done|]. inversion 1 as [|? y' ? k'' Hy Hk]; subst.
        by apply IH in Hk.
    + split; [done|]. inversion 1; congruence.
Qed.

Lemma mapM_Raised {A B} (f : A → outcome B) l x e :
  x ∈ l → f x = Raised e → ∃ e', mapM f l = Raised e'.
Proof.
  intros Hin Hx. induction l as [|y l IH]; [by apply elem_of_nil in Hin|].
  simpl. destruct (f y) as [b|e1] eqn:Hy; simpl; [|by eexists].
  apply elem_of_cons in Hin as [->|Hin]; [by rewrite Hx in Hy|].
  destruct (IH Hin) as [e' ->]. by eexists.
Qed.

Lemma normalize_plane_obj_Returned v r :
  sensor.normalize_plane_obj v = Returned r →
  ∃ p, v = VDict p ∧ sensor.normalize_plane p = Returned r.
Proof. destruct v; try done. by eexists. Qed.

Section coordinator_more.
Context `{!Formatter}.
Import homeassistant.

(** How the [try] block ends: in the request, in one of the two early
    returns, or in an exception of the registry lookup. *)
Lemma try_body_cases self hass :
  (∃ lat lon, located self hass lat lon)
  ∨ (result (sensor.try_body self hass) = Returned []
     ∧ ∃ msg, trace (sensor.try_body self hass) = [LogError msg])
  ∨ (∃ err, result (sensor.try_body self hass) = Raised err
       ∧ trace (sensor.try_body self hass) = []).
Proof.
  unfold sensor.try_body.
  destruct (states_get hass _) as [[st|]|] eqn:Hst.
  - unfold mbind, io_bind, lift. cbn [result trace app].
    destruct (py_get (attributes st) "latitude") eqn:Hlat;
      destruct (py_get (attributes st) "longitude") eqn:Hlon;
      first [ by right; left; split; [|eexists]
            | left; eexists _, _; exists st;
              split; [done|]; split; [exact Hlat|]; split; [exact Hlon|]; done ].
  - right. left. split; [done|]. by eexists.
  - right. right. by eexists.
Qed.

Lemma fetch_planes_trace self hass lat lon :
  List.filter is_error (trace (sensor.fetch_planes self hass lat lon)) = [].
Proof.
  unfold sensor.fetch_planes. simpl.
  destruct (read_json _) as [data|]; simpl; [|done].
  destruct (obj_get_default data _ _) as [ac|]; simpl; [|done].
  destruct (py_iter _) as [items|]; simpl; [|done].
  by destruct (mapM _ items).
Qed.

Lemma fetch_planes_Returned self hass lat lon planes :
  result (sensor.fetch_planes self hass lat lon) = Returned planes →
  ∃ items, mapM sensor.normalize_plane_obj items = Returned planes.
Proof.
  rewrite fetch_planes_result.
  destruct (read_json _) as [data|]; simpl; [|done].
  destruct (obj_get_default data _ _) as [ac|]; simpl; [|done].
  destruct (py_iter _) as [items|]; simpl; [|done].
  intros Hitems. by exists items.
Qed.

(** X2: whatever the registry and the server answer, the snapshot of a
    cycle consists of normalized records: each has exactly the 22 keys, a
    boolean ['on_ground'], and a ['flight'] that is [None] or a non-empty
    string without whitespace at its ends. *)
Theorem snapshot_records_normalized self hass :
  ∃ planes, result (sensor._async_update_data self hass) = Returned planes
    ∧ Forall normalized_record planes.
Proof.
  rewrite update_result.
  destruct (result (sensor.try_body self hass)) as [planes|] eqn:Hbody;
    [|by exists []].
  exists planes. split; [done|].
  destruct (try_body_cases self hass)
    as [(lat & lon & Hloc)|[[Hnil _]|(err & Herr & _)]].
  - destruct (try_body_located _ _ _ _ Hloc) as [_ Hres].
    rewrite Hres in Hbody.
    apply fetch_planes_Returned in Hbody as (items & Hitems).
    apply mapM_Returned in Hitems.
    induction Hitems as [|v r items planes Hv _ IH]; constructor; [|done].
    apply normalize_plane_obj_Returned in Hv as (p & _ & Hp).
    by eapply normalize_plane_normalized.
  - rewrite Hnil in Hbody. by injection Hbody as <-.
  - by rewrite Herr in Hbody.
Qed.

(** X3: a cycle logs at most one error, and a cycle that logs one has the
    empty snapshot. *)
Theorem error_means_empty self hass :
  List.filter is_error (trace (sensor._async_update_data self hass)) = []
  ∨ (∃ msg, List.filter is_error (trace (sensor._async_update_data self hass))
            = [LogError msg])
    ∧ result (sensor._async_update_data self hass) = Returned [].
Proof.
  rewrite update_trace, update_result, List.filter_app.
  destruct (try_body_cases self hass)
    as [(lat & lon & Hloc)|[[Hnil [msg Hmsg]]|(err & Herr & Htr)]].
  - destruct (try_body_located _ _ _ _ Hloc) as [-> _].
    rewrite fetch_planes_trace.
    destruct (result (sensor.try_body self hass)); [by left|].
    right. split; [by eexists|done].
  - rewrite Hnil, Hmsg. right. split; [by eexists|done].
  - rewrite Herr, Htr. right. split; [by eexists|done].
Qed.

End coordinator_more.

Lemma normalize_plane_returns p flight :
  obj_strip (py_or (py_get p "flight") (VStr "")) = Returned flight →
  ∃ r, sensor.normalize_plane p = Returned r
    ∧ r !! "flight" = Some (py_or (VStr flight) VNone).
Proof.
  intros Hflight. unfold sensor.normalize_plane. rewrite Hflight.
  eexists. split; [reflexivity|]. py_dict_field.
Qed.

Lemma normalize_plane_raises p err :
  obj_strip (py_or (py_get p "flight") (VStr "")) = Raised err →
  sensor.normalize_plane p = Raised err.
Proof. intros Hflight. unfold sensor.normalize_plane. by rewrite Hflight. Qed.

(** X4: [normalize_plane] raises exactly when ['flight'] is truthy and not a
    string; a falsy ['flight'] of any type (0, [False], an empty list) is
    accepted and normalized to [None]. *)
Theorem normalize_plane_raises_iff (p : pydict) :
  (sensor.normalize_plane p = Raised AttributeError ↔
     ∃ f, p !! "flight" = Some f ∧ truthy f = true ∧ ∀ s, f ≠ VStr s)
  ∧ (∀ f, p !! "flight" = Some f → truthy f = false →
       ∃ r, sensor.normalize_plane p = Returned r ∧ r !! "flight" = Some VNone)
  ∧ ((∃ r, sensor.normalize_plane p = Returned r)
     ∨ sensor.normalize_plane p = Raised AttributeError).
Proof.
  assert (truthy (py_get p "flight") = false →
            ∃ r, sensor.normalize_plane p = Returned r
              ∧ r !! "flight" = Some VNone) as Hfalsy.
  { intros Hfalse.
    destruct (normalize_plane_returns p EmptyString) as (r & Hr & Hflight).
    - unfold py_or. by rewrite Hfalse.
    - by exists r. }
  assert (∀ s, py_get p "flight" = VStr s →
            ∃ r, sensor.normalize_plane p = Returned r) as Hstr.
  { intros s Hs.
    destruct (normalize_plane_returns p
                (strip (if truthy (VStr s) then s else EmptyString)))
      as (r & Hr & _).
    - unfold py_or. rewrite Hs. by destruct (truthy (VStr s)).
    - by exists r. }
  assert (truthy (py_get p "flight") = true →
          (∀ s, py_get p "flight" ≠ VStr s) →
            sensor.normalize_plane p = Raised AttributeError) as Hbad.
  { intros Htrue Hns. apply normalize_plane_raises. unfold py_or.
    rewrite Htrue. destruct (py_get p "flight") as [| | | |s| |]; try done.
    by destruct (Hns s). }
  assert ((∃ r, sensor.normalize_plane p = Returned r)
     ∨ sensor.normalize_plane p = Raised AttributeError
       ∧ truthy (py_get p "flight") = true
       ∧ ∀ s, py_get p "flight" ≠ VStr s) as Hcases.
  { destruct (truthy (py_get p "flight")) eqn:Htr.
    - destruct (py_get p "flight") as [| | | |s| |] eqn:Hf;
        first [ left; by apply (Hstr s)
              | right; split; [by apply Hbad|done] ].
    - left. destruct (Hfalsy eq_refl) as (r & Hr & _). by exists r. }
  split; [|split].
  - split.
    + intros Hraised. destruct Hcases as [[r Hr]|(_ & Htr & Hns)]; [congruence|].
      unfold py_get in Htr, Hns. destruct (p !! "flight") as [f|]; [|done].
      by exists f.
    + intros (f & Hf & Htr & Hns). apply Hbad; unfold py_get; by rewrite Hf.
  - intros f Hf Htr. apply Hfalsy. unfold py_get. by rewrite Hf.
  - destruct Hcases as [?|[? _]]; [by left|by right].
Qed.

Lemma malformed_raises v :
  malformed v → sensor.normalize_plane_obj v = Raised AttributeError.
Proof.
  intros [Hnd|(p & f & -> & Hf & Htr & Hns)].
  - destruct v; try done. by destruct (Hnd d).
  - simpl. apply normalize_plane_raises. unfold py_or, py_get.
    rewrite Hf. simpl default. rewrite Htr.
    destruct f; try done. by destruct (Hns s).
Qed.

Lemma normalizable_returns v :
  normalizable v →
  ∃ p r, v = VDict p ∧ sensor.normalize_plane p = Returned r.
Proof.
  intros (p & -> & Hp).
  destruct (normalize_plane_returns p _ (flight_strip p Hp)) as (r & Hr & _).
  by exists p, r.
Qed.

Section coordinator_answers.
Context `{!Formatter}.
Import homeassistant.

Lemma answered_result self hass raw :
  answered self hass raw →
  result (sensor.try_body self hass) = mapM sensor.normalize_plane_obj raw
  ∧ List.filter is_error (trace (sensor.try_body self hass)) = [].
Proof.
  intros (lat & lon & status & d & Hloc & Hreq & Hstatus & Hac).
  destruct (try_body_located _ _ _ _ Hloc) as [-> ->]. split.
  - rewrite fetch_planes_result, Hreq. simpl.
    destruct (Z.leb_spec 400 status); [lia|]. simpl.
    unfold py_get_default, py_or. rewrite Hac. simpl default.
    by destruct raw.
  - apply fetch_planes_trace.
Qed.

(** X5: when the server answers with a list of records that the
    normalizer accepts, the snapshot has one normalized record for each raw
    record, in the same order, and no error is logged. *)
Theorem snapshot_keeps_every_record self hass raw :
  answered self hass raw →
  Forall normalizable raw →
  ∃ planes, result (sensor._async_update_data self hass) = Returned planes
    ∧ Forall2 (λ v r, ∃ p, v = VDict p ∧ sensor.normalize_plane p = Returned r)
        raw planes
    ∧ length planes = length raw
    ∧ List.filter is_error (trace (sensor._async_update_data self hass)) = [].
Proof.
  intros [Hres Herr]%answered_result Hraw.
  assert (∃ planes, mapM sensor.normalize_plane_obj raw = Returned planes
            ∧ Forall2 (λ v r, ∃ p, v = VDict p
                                ∧ sensor.normalize_plane p = Returned r)
                raw planes) as (planes & Hplanes & Hall).
  { clear Hres Herr. induction Hraw as [|v raw Hv _ (planes & Hplanes & Hall)].
    - exists []. by split; [|constructor].
    - destruct (normalizable_returns v Hv) as (p & r & -> & Hr).
      exists (r :: planes). split.
      + simpl. by rewrite Hr, Hplanes.
      + constructor; [by exists p|done]. }
  exists planes. rewrite update_result, update_trace, Hres, Hplanes, app_nil_r.
  split; [done|]. split; [done|]. split; [|done].
  symmetry. by eapply Forall2_length.
Qed.

(** X6: one record on which the normalizer raises discards the whole
    snapshot: the cycle returns the empty list and logs one error. *)
Theorem one_bad_record_discards_all self hass raw v :
  answered self hass raw →
  v ∈ raw →
  malformed v →
  result (sensor._async_update_data self hass) = Returned []
  ∧ List.filter is_error (trace (sensor._async_update_data self hass))
    = [LogError "Planes Nearby: error updating data: %s"].
Proof.
  intros [Hres Herr]%answered_result Hin Hbad%malformed_raises.
  destruct (mapM_Raised _ _ _ _ Hin Hbad) as [err Hraised].
  rewrite update_result, update_trace, List.filter_app, Herr, Hres, Hraised.
  by split.
Qed.

(** X7: after such a cycle the sensor shows the number of raw records whose
    ['alt_baro'] is not the string ["ground"], out of a total that is the
    number of raw records. *)
Theorem sensor_counts_raw_airborne self hass raw previous_update_success :
  answered self hass raw →
  Forall normalizable raw →
  sensor.native_value
    (sensor.after (sensor.async_refresh self hass previous_update_success))
  = length (List.filter raw_airborne raw)
  ∧ sensor.extra_state_attributes
      (sensor.after (sensor.async_refresh self hass previous_update_success))
      !! "total_planes"
    = Some (VInt (Z.of_nat (length raw))).
Proof.
  intros [Hres _]%answered_result Hraw.
  assert (∃ planes, mapM sensor.normalize_plane_obj raw = Returned planes
            ∧ airborne_count planes = length (List.filter raw_airborne raw)
            ∧ length planes = length raw) as (planes & Hplanes & Hcount & Hlen).
  { clear Hres. induction Hraw as [|v raw Hv _ (planes & Hplanes & Hcount & Hlen)].
    - by exists [].
    - destruct (normalizable_returns v Hv) as (p & r & -> & Hr).
      exists (r :: planes). split; [simpl; by rewrite Hr, Hplanes|].
      destruct (normalize_plane_shape _ _ Hr) as (s & _ & _ & Hground).
      simpl. unfold py_get at 1. rewrite Hground, Hcount, Hlen. simpl.
      split; [|done]. by destruct (py_eq _ _). }
  unfold sensor.async_refresh. rewrite update_result, Hres, Hplanes.
  unfold sensor.native_value, sensor.extra_state_attributes. simpl.
  by rewrite filter_airborne_count, Hcount, Hlen.
Qed.

(** X8: every coordinator that gets to a request has a location entity
    that the wizard accepts. *)
Theorem located_is_valid self hass lat lon :
  located self hass lat lon →
  ∃ entity_id, sensor._location_entity_id self = VStr entity_id
    ∧ valid_location hass entity_id
    ∧ config_flow._validate_location_entity hass (VStr entity_id) = Returned tt.
Proof.
  intros (st & Hst & Hlat & Hlon & Hnlat & Hnlon).
  destruct (sensor._location_entity_id self) as [| | | |entity_id| |]; try done.
  exists entity_id. split; [done|].
  assert (valid_location hass entity_id) as Hvalid.
  { exists st. injection Hst as Hst. split; [done|].
    unfold py_get in *. subst lat lon.
    destruct (attributes st !! "latitude"); [|done].
    by destruct (attributes st !! "longitude"). }
  split; [done|]. by apply validate_valid.
Qed.

(** X9: the converse fails on a null coordinate: an entity whose
    ['latitude'] or ['longitude'] attribute is present but [None] is
    accepted by the wizard, yet the coordinator makes no request, returns
    the empty list and logs an error, at every cycle. *)
Theorem null_coordinate_accepted_but_not_polled self hass entity_id st :
  sensor._location_entity_id self = VStr entity_id →
  states hass entity_id = Some st →
  is_Some (attributes st !! "latitude") →
  is_Some (attributes st !! "longitude") →
  attributes st !! "latitude" = Some VNone
    ∨ attributes st !! "longitude" = Some VNone →
  config_flow._validate_location_entity hass (VStr entity_id) = Returned tt
  ∧ sensor._async_update_data self hass
    = IO [LogError "Planes Nearby: entity %s has no latitude/longitude"]
         (Returned []).
Proof.
  intros Hid Hst Hlat Hlon Hnull. split.
  - apply validate_valid. by exists st.
  - unfold sensor._async_update_data, sensor.try_body, try_except, py_get.
    rewrite Hid. simpl. rewrite Hst.
    unfold mbind, io_bind, lift. cbn [result trace app].
    destruct Hnull as [->| ->]; simpl; [done|].
    by destruct (default VNone (attributes st !! "latitude")).
Qed.

End coordinator_answers.

(** ** The map markers, further *)

Section markers_further.
Context {objects : Identity}.

Lemma available_true_iff self coordinator :
  geo_location.available self coordinator = true ↔
    ∃ p, p ∈ snapshot coordinator
      ∧ py_eq (py_get p "hex") (geo_location.hex_id self) = true.
Proof.
  unfold geo_location.available, geo_location._plane.
  rewrite snapshot_default, <- find_is_Some.
  destruct (List.find _ _); split; try done; [by eexists|by intros [? ?]].
Qed.

Lemma update_entities_nothing_new entities coordinator :
  Forall str_entity entities →
  NoDup (geo_location.hex_id <$> entities) →
  Forall hex_typed (snapshot coordinator) →
  (∀ h p, h ≠ EmptyString → p ∈ snapshot coordinator →
     p !! "hex" = Some (VStr h) → VStr h ∈ geo_location.hex_id <$> entities) →
  geo_location._update_entities entities coordinator = Returned (entities, []).
Proof.
  intros Hstr Hnd Htyped Hknown.
  destruct (scan_spec (snapshot coordinator)
              (geo_location.hex_id <$> entities) [] Htyped)
    as (added & Hscan & _ & _ & Hmem).
  assert (added = []) as ->.
  { destruct added as [|e added]; [done|].
    destruct (proj1 (Hmem (geo_location.hex_id e))) as [Hfresh (h & p & Hh & ? & ? & ?)].
    - rewrite fmap_cons. by apply elem_of_cons; left.
    - destruct Hfresh. rewrite Hh. by eapply Hknown. }
  unfold geo_location._update_entities.
  rewrite (str_entities_hashable _ Hstr), snapshot_default. simpl.
  rewrite Hscan. simpl. by rewrite app_nil_r.
Qed.

(** X10: over snapshots whose identifiers are strings (or [None]), a
    snapshot without a new identifier adds no entity: the listener returns
    the entities it found and hands nothing to [async_add_entities]. *)
Theorem no_new_identifier_no_new_entity snapshots coordinator :
  hexes_typed (snapshots ++ [coordinator]) →
  (∀ h p, h ≠ EmptyString → p ∈ snapshot coordinator →
     p !! "hex" = Some (VStr h) → seen snapshots h) →
  geo_location._update_entities
    (geo_location.entities_after snapshots) coordinator
  = Returned (geo_location.entities_after snapshots, [])
  ∧ geo_location.entities_after (snapshots ++ [coordinator])
    = geo_location.entities_after snapshots.
Proof.
  intros [Htyped [Hc _]%Forall_cons]%Forall_app Hknown.
  destruct (entities_after_inv _ Htyped) as (Hstr & Hnd & Hmem).
  assert (geo_location._update_entities
            (geo_location.entities_after snapshots) coordinator
          = Returned (geo_location.entities_after snapshots, [])) as Hupd.
  { apply update_entities_nothing_new; try done.
    intros h p Hh Hp Hhex. apply Hmem. exists h. repeat split; try done.
    by eapply Hknown. }
  split; [done|].
  rewrite entities_after_snoc. unfold geo_location.listener. by rewrite Hupd.
Qed.

(** X11: over snapshots whose identifiers are strings (or [None]), the
    same snapshot seen twice gives the entities of seeing it once. *)
Theorem repeated_snapshot_adds_nothing snapshots coordinator :
  hexes_typed (snapshots ++ [coordinator]) →
  geo_location.entities_after (snapshots ++ [coordinator; coordinator])
  = geo_location.entities_after (snapshots ++ [coordinator]).
Proof.
  intros Htyped.
  destruct (entities_after_inv _ Htyped) as (Hstr & Hnd & Hmem).
  pose proof Htyped as [_ [Hc _]%Forall_cons]%Forall_app.
  change [coordinator; coordinator] with ([coordinator] ++ [coordinator]).
  rewrite (assoc_L (++)), entities_after_snoc. unfold geo_location.listener.
  rewrite update_entities_nothing_new; try done.
  intros h p Hh Hp Hhex. apply Hmem. exists h. repeat split; try done.
  exists coordinator, p. split; [|done].
  apply elem_of_app. right. by apply list_elem_of_singleton.
Qed.

(** X12: over snapshots whose identifiers are strings (or [None]), the
    entities that a listener call creates are available in the snapshot that
    made it create them. *)
Theorem new_entities_available snapshots coordinator :
  hexes_typed (snapshots ++ [coordinator]) →
  ∃ added,
    geo_location.entities_after (snapshots ++ [coordinator])
    = geo_location.entities_after snapshots ++ added
    ∧ Forall (λ e, geo_location.available e coordinator = true) added.
Proof.
  intros [Htyped [Hc _]%Forall_cons]%Forall_app.
  destruct (entities_after_inv _ Htyped) as (Hstr & Hnd & _).
  unfold geo_location._update_entities.
  destruct (scan_spec (snapshot coordinator)
              (geo_location.hex_id <$> geo_location.entities_after snapshots)
              [] Hc)
    as (added & Hscan & _ & _ & Hmem).
  exists added. split.
  - rewrite entities_after_snoc.
    unfold geo_location.listener, geo_location._update_entities.
    rewrite (str_entities_hashable _ Hstr), snapshot_default. simpl.
    by rewrite Hscan.
  - apply Forall_forall. intros e He. apply available_true_iff.
    destruct (proj1 (Hmem (geo_location.hex_id e)))
      as [_ (h & p & Hh & _ & Hp & Hhex)].
    { by apply list_elem_of_fmap_2. }
    exists p. split; [done|]. rewrite Hh. apply py_eq_str. by apply py_get_str.
Qed.

End markers_further.

Lemma plane_first_match self coordinator h p :
  geo_location.hex_id self = VStr h →
  first_match coordinator h p →
  geo_location._plane self coordinator = Some p ∧ truthy (VDict p) = true.
Proof.
  intros Hself (pre & rest & Hsnap & Hpre & Hp). split.
  - unfold geo_location._plane. rewrite snapshot_default, Hsnap, Hself.
    clear Hsnap. induction Hpre as [|q pre Hq _ IH]; simpl.
    + by rewrite (proj2 (py_eq_str _ _) (proj2 (py_get_str _ _ _) Hp)).
    + destruct (py_eq (py_get q "hex") (VStr h)) eqn:Heq; [|done].
      apply py_eq_str, py_get_str in Heq. by destruct Hq.
  - simpl. destruct (Nat.eqb_spec (size p) 0) as [Hz|]; [|done].
    apply map_size_empty_iff in Hz. by rewrite Hz in Hp.
Qed.

(** X13: an available entity reads the first plane of the snapshot that
    carries its identifier: its latitude, longitude and state are that
    plane's ['lat'], ['lon'] and ['distance']. *)
Theorem entity_reads_first_match self coordinator h p :
  geo_location.hex_id self = VStr h →
  first_match coordinator h p →
  geo_location.available self coordinator = true
  ∧ geo_location.latitude self coordinator = py_get p "lat"
  ∧ geo_location.longitude self coordinator = py_get p "lon"
  ∧ geo_location.state self coordinator = py_get p "distance".
Proof.
  intros Hself Hmatch.
  destruct (plane_first_match _ _ _ _ Hself Hmatch) as [Hplane Htruthy].
  unfold geo_location.available, geo_location.latitude,
    geo_location.longitude, geo_location.state, geo_location.get_if.
  by rewrite Hplane, Htruthy.
Qed.

Lemma string_app_inj (s a b : string) : s +:+ a = s +:+ b → a = b.
Proof.
  induction s as [|c s IH]; [done|].
  change (String c s +:+ a) with (String c (s +:+ a)).
  change (String c s +:+ b) with (String c (s +:+ b)).
  intros [= Heq]. by apply IH.
Qed.

Section markers_more.
Context `{!Formatter} {objects : Identity}.

(** X14: over snapshots whose identifiers are strings (or [None]), and
    when the formatter renders different strings differently (as Python's
    does: a string is rendered as itself), the entities have pairwise
    distinct unique ids. *)
Theorem unique_ids_distinct snapshots :
  (∀ s t, format (VStr s) = format (VStr t) → s = t) →
  hexes_typed snapshots →
  NoDup (geo_location.unique_id <$> geo_location.entities_after snapshots).
Proof.
  intros Hinj Htyped.
  destruct (entities_after_inv _ Htyped) as (Hstr & Hnd & _).
  apply NoDup_fmap_2_strong; [|by eapply NoDup_fmap_1].
  intros [v1] [v2] H1 H2 Heq.
  rewrite Forall_forall in Hstr.
  destruct (Hstr _ H1) as (h1 & Hh1 & _), (Hstr _ H2) as (h2 & Hh2 & _).
  simpl in Hh1, Hh2. subst v1 v2.
  apply string_app_inj in Heq. by rewrite (Hinj _ _ Heq).
Qed.


End markers_more.


(** ** The setup wizard, further *)

Lemma py_or_truthy a b : truthy a = true → py_or a b = a.
Proof. unfold py_or. by intros ->. Qed.

Lemma py_or_falsy a b : truthy a = false → py_or a b = b.
Proof. unfold py_or. by intros ->. Qed.

Section wizard_more.
Context `{!Const}.
Import homeassistant.

(** X17: the options form shows a distance of the options only when it is
    truthy.  A truthy distance of the options is both the one in force and
    the one shown; a falsy one (0.0) is in force, while the form shows the
    distance of the initial data, or 25.0. *)
Theorem options_form_shows_truthy_only entry (v : value) :
  options entry !! CONF_DISTANCE = Some v →
  sensor._distance (geo_location.async_setup_entry entry) = v
  ∧ (truthy v = true →
       form_defaults (config_flow.init_schema entry) !! 1
       = Some (CONF_DISTANCE, Some v))
  ∧ (truthy v = false →
       form_defaults (config_flow.init_schema entry) !! 1
       = Some (CONF_DISTANCE,
               Some (py_or (py_get (data entry) CONF_DISTANCE) (VFloat float_25)))).
Proof.
  intros Hv. split; [|split].
  - unfold geo_location.async_setup_entry, py_get_default. simpl. by rewrite Hv.
  - intros Htr. unfold form_defaults, config_flow.init_schema.
    rewrite !fmap_cons. cbn [lookup list_lookup config_flow.key
      config_flow.default_value].
    assert (py_get (options entry) CONF_DISTANCE = v) as ->
      by (unfold py_get; by rewrite Hv).
    by rewrite !(py_or_truthy v).
  - intros Htr. unfold form_defaults, config_flow.init_schema.
    rewrite !fmap_cons. cbn [lookup list_lookup config_flow.key
      config_flow.default_value].
    assert (py_get (options entry) CONF_DISTANCE = v) as ->
      by (unfold py_get; by rewrite Hv).
    by rewrite (py_or_falsy v).
Qed.

(** X18: what the wizard stores is what the platforms read.  For an
    accepted input, [async_step_user] creates an entry titled with the
    given name (the default name when it is missing or empty) whose data
    has the three keys; set up from that entry, both platforms poll the
    entity and the distance of the input, and the sensor carries the
    name. *)
Theorem wizard_entry_sets_up hass (user_input : pydict) entity_id distance :
  CONF_NAME ≠ CONF_LOCATION_ENTITY_ID →
  CONF_NAME ≠ CONF_DISTANCE →
  CONF_LOCATION_ENTITY_ID ≠ CONF_DISTANCE →
  user_input !! CONF_LOCATION_ENTITY_ID = Some (VStr entity_id) →
  user_input !! CONF_DISTANCE = Some distance →
  valid_location hass entity_id →
  ∃ d,
    config_flow.async_step_user hass (Some user_input)
    = Returned (config_flow.create_entry
                  (py_or (py_get user_input CONF_NAME) (VStr DEFAULT_NAME)) d)
    ∧ dom d = {[ CONF_NAME; CONF_LOCATION_ENTITY_ID; CONF_DISTANCE ]}
    ∧ sensor.async_setup_entry (entry_of d)
      = ({| sensor._location_entity_id := VStr entity_id;
            sensor._distance := distance;
            sensor.data := None |},
         {| sensor._attr_name :=
              py_or (py_get user_input CONF_NAME) (VStr DEFAULT_NAME);
            sensor._attr_unique_id := "planes_nearby_sensor" |})
    ∧ geo_location.async_setup_entry (entry_of d)
      = {| sensor._location_entity_id := VStr entity_id;
           sensor._distance := distance;
           sensor.data := None |}.
Proof.
  intros Hnl Hnd Hld Hid Hdist Hvalid.
  eexists. split.
  { unfold config_flow.async_step_user, py_index. rewrite Hid, Hdist. simpl.
    rewrite (validate_valid _ _ Hvalid). reflexivity. }
  unfold py_dict. simpl. split.
  - rewrite !dom_insert_L, dom_empty_L. apply set_eq. intros k.
    rewrite !elem_of_union, !elem_of_singleton, elem_of_empty. tauto.
  - unfold sensor.async_setup_entry, geo_location.async_setup_entry,
      entry_of, py_get_default, py_get. simpl.
    rewrite !lookup_empty. simpl.
    rewrite (lookup_insert_ne _ CONF_DISTANCE CONF_NAME) by done.
    rewrite (lookup_insert_ne _ CONF_LOCATION_ENTITY_ID CONF_NAME) by done.
    rewrite (lookup_insert_eq _ CONF_NAME).
    rewrite (lookup_insert_ne _ CONF_DISTANCE CONF_LOCATION_ENTITY_ID) by done.
    rewrite (lookup_insert_eq _ CONF_LOCATION_ENTITY_ID).
    rewrite (lookup_insert_eq _ CONF_DISTANCE).
    done.
Qed.

(** X19: an input without the entity id or without the distance makes
    both steps raise [KeyError], before any validation; no form is shown
    and no entry is created. *)
Theorem step_missing_key_raises hass config_entry (user_input : pydict) :
  user_input !! CONF_LOCATION_ENTITY_ID = None
    ∨ user_input !! CONF_DISTANCE = None →
  config_flow.async_step_user hass (Some user_input) = Raised KeyError
  ∧ config_flow.async_step_init hass config_entry (Some user_input)
    = Raised KeyError.
Proof.
  intros Hmissing.
  unfold config_flow.async_step_user, config_flow.async_step_init, py_index.
  destruct Hmissing as [->| ->]; [done|].
  by destruct (user_input !! CONF_LOCATION_ENTITY_ID).
Qed.

End wizard_more.

(** ** The further properties at the sample installation *)

Lemma sample_snapshots_typed : hexes_typed sample_snapshots.
Proof.
  unfold hexes_typed, sample_snapshots, sample_coordinator, snapshot.
  cbn [sensor.data].
  repeat (apply Forall_cons; split); try apply Forall_nil;
    first [done | by left | by right; eexists].
Qed.

Lemma sample_answered (raw : list value) :
  answered (H := sample_format) (sample_coordinator None)
    (sample_hass (VDict {[ "ac" := VList raw ]})) raw.
Proof.
  exists (VInt 60), (VInt 25), 200%Z, {[ "ac" := VList raw ]}.
  split; [|split; [done|split; [lia|done]]].
  exists sample_home. by repeat split.
Qed.

Lemma sample_record_normalizable : normalizable (VDict sample_record).
Proof. exists sample_record. split; [done|]. right. right. by eexists. Qed.

(** The sample callsign is not blank. *)
Lemma normalized_flight_blank_iff_sample :
  ∃ r, sensor.normalize_plane sample_record = Returned r
    ∧ r !! "flight" = Some (VStr "FIN5LA").
Proof.
  destruct (normalized_flight_blank_iff sample_record "FIN5LA  " eq_refl)
    as (r & Hr & _ & Hflight).
  exists r. split; [done|]. by apply Hflight.
Defined.

(** One raw record gives one normalized record. *)
Lemma snapshot_keeps_every_record_sample :
  ∃ planes,
    result (sensor._async_update_data (H := sample_format)
              (sample_coordinator None) (sample_hass sample_body))
    = Returned planes
    ∧ length planes = 1.
Proof.
  destruct (snapshot_keeps_every_record (H := sample_format)
              (sample_coordinator None) (sample_hass sample_body)
              [VDict sample_record] (sample_answered _))
    as (planes & Hplanes & _ & Hlen & _).
  - repeat constructor. apply sample_record_normalizable.
  - by exists planes.
Defined.

(** The number 3 among the records empties the snapshot. *)
Lemma one_bad_record_discards_all_sample :
  result (sensor._async_update_data (H := sample_format)
            (sample_coordinator None) (sample_hass sample_bad_body))
  = Returned [].
Proof.
  apply (one_bad_record_discards_all (H := sample_format)
           (sample_coordinator None) (sample_hass sample_bad_body)
           [VDict sample_record; VInt 3] (VInt 3) (sample_answered _)).
  - apply elem_of_cons. right. apply elem_of_cons. by left.
  - by left.
Defined.

(** The sample record is on the ground: none airborne out of one. *)
Lemma sensor_counts_raw_airborne_sample :
  sensor.native_value
    (sensor.after (sensor.async_refresh (H := sample_format)
                     (sample_coordinator None) (sample_hass sample_body) true))
  = 0.
Proof.
  apply (sensor_counts_raw_airborne (H := sample_format)
           (sample_coordinator None) (sample_hass sample_body)
           [VDict sample_record] true (sample_answered _)).
  repeat constructor. apply sample_record_normalizable.
Defined.

(** [zone.home] passes the wizard's check. *)
Lemma located_is_valid_sample :
  ∃ entity_id, VStr "zone.home" = VStr entity_id
    ∧ valid_location (sample_hass VNone) entity_id.
Proof.
  destruct (located_is_valid (sample_coordinator None) (sample_hass VNone)
              (VInt 60) (VInt 25) sample_located)
    as (entity_id & Hid & Hvalid & _).
  by exists entity_id.
Defined.

(** The entity with the null latitude is accepted and never polled. *)
Lemma null_coordinate_accepted_but_not_polled_sample :
  config_flow._validate_location_entity sample_hass_null (VStr "zone.home")
  = Returned tt
  ∧ sensor._async_update_data (H := sample_format)
      (sample_coordinator None) sample_hass_null
    = IO [LogError "Planes Nearby: entity %s has no latitude/longitude"]
         (Returned []).
Proof.
  apply (null_coordinate_accepted_but_not_polled (H := sample_format)
           (sample_coordinator None) sample_hass_null "zone.home"
           {| homeassistant.attributes :=
                {[ "latitude" := VNone; "longitude" := VInt 25 ]} |});
    first [reflexivity | by eexists | by left].
Defined.

(** Without a registered entity no request is made. *)
Lemma no_get_when_not_located_sample :
  List.filter is_get
    (trace (sensor._async_update_data (H := sample_format)
              {| sensor._location_entity_id := VStr "zone.nowhere";
                 sensor._distance := VInt 25;
                 sensor.data := None |}
              (sample_hass VNone)))
  = [].
Proof.
  apply (no_get_when_not_located (H := sample_format)).
  intros lat lon (st & Hst & _). by vm_compute in Hst.
Defined.

(** The third sample snapshot, seen again, adds nothing. *)
Lemma repeated_snapshot_adds_nothing_sample :
  geo_location.hex_id
    <$> geo_location.entities_after (objects := sample_objects)
          (sample_snapshots ++ [sample_coordinator None; sample_coordinator None])
  = [VStr "4601f2"; VStr "a1b2c3"].
Proof.
  rewrite (repeated_snapshot_adds_nothing (objects := sample_objects) sample_snapshots (sample_coordinator None)).
  - reflexivity.
  - apply Forall_app. split; [apply sample_snapshots_typed|].
    by repeat constructor.
Defined.

(** A snapshot with the known [4601f2] only adds nothing. *)
Lemma no_new_identifier_no_new_entity_sample :
  geo_location.entities_after (objects := sample_objects)
    (sample_snapshots ++ [sample_coordinator (Some [ {[ "hex" := VStr "4601f2" ]} ])])
  = geo_location.entities_after (objects := sample_objects) sample_snapshots.
Proof.
  apply (no_new_identifier_no_new_entity (objects := sample_objects) sample_snapshots
           (sample_coordinator (Some [ {[ "hex" := VStr "4601f2" ]} ]))).
  - apply Forall_app. split; [apply sample_snapshots_typed|].
    apply Forall_cons. split; [|by apply Forall_nil].
    unfold snapshot, sample_coordinator. cbn [sensor.data].
    apply Forall_cons. split; [|by apply Forall_nil].
    right. by eexists.
  - intros h p _ Hp Hhex. apply list_elem_of_singleton in Hp as ->.
    apply lookup_singleton_Some in Hhex as [_ [= <-]].
    exists (sample_coordinator
              (Some [ {[ "hex" := VStr "4601f2" ]}; {[ "hex" := VNone ]} ])),
      {[ "hex" := VStr "4601f2" ]}.
    split; [apply list_elem_of_here|].
    split; [apply list_elem_of_here|apply lookup_singleton_eq].
Defined.

(** The entity that the third sample snapshot adds is available in it. *)
Lemma new_entities_available_sample :
  ∃ added,
    geo_location.entities_after (objects := sample_objects) sample_snapshots
    = geo_location.entities_after (objects := sample_objects) (take 2 sample_snapshots) ++ added
    ∧ Forall (λ e, geo_location.available e
                     (sample_coordinator
                        (Some [ {[ "hex" := VStr "a1b2c3" ]};
                                {[ "hex" := VStr "4601f2" ]};
                                {[ "hex" := VStr "" ]} ])) = true) added.
Proof.
  apply (new_entities_available (objects := sample_objects) (take 2 sample_snapshots)).
  apply sample_snapshots_typed.
Defined.

(** The entity [4601f2] reads its plane of the third sample snapshot. *)
Lemma entity_reads_first_match_sample :
  geo_location.available {| geo_location.hex_id := VStr "4601f2" |}
    (sample_coordinator (Some [ {[ "hex" := VStr "a1b2c3" ]};
                                {[ "hex" := VStr "4601f2"; "lat" := VInt 60 ]} ]))
  = true
  ∧ geo_location.latitude {| geo_location.hex_id := VStr "4601f2" |}
      (sample_coordinator (Some [ {[ "hex" := VStr "a1b2c3" ]};
                                  {[ "hex" := VStr "4601f2"; "lat" := VInt 60 ]} ]))
    = VInt 60.
Proof.
  destruct (entity_reads_first_match {| geo_location.hex_id := VStr "4601f2" |}
              (sample_coordinator
                 (Some [ {[ "hex" := VStr "a1b2c3" ]};
                         {[ "hex" := VStr "4601f2"; "lat" := VInt 60 ]} ]))
              "4601f2" {[ "hex" := VStr "4601f2"; "lat" := VInt 60 ]} eq_refl)
    as (Havail & Hlat & _).
  - exists [ {[ "hex" := VStr "a1b2c3" ]} ], [].
    split; [done|]. split; [|done]. by repeat constructor.
  - by split.
Defined.

(** The two sample entities have different unique ids. *)
Lemma unique_ids_distinct_sample :
  NoDup (geo_location.unique_id (H := sample_format)
           <$> geo_location.entities_after (objects := sample_objects) sample_snapshots).
Proof.
  apply (unique_ids_distinct (H := sample_format) (objects := sample_objects) sample_snapshots).
  - by intros s t.
  - apply sample_snapshots_typed.
Defined.

(** With 0.0 in the options the form shows the 10 of the initial data. *)
Lemma options_form_shows_truthy_only_sample :
  sensor._distance
    (geo_location.async_setup_entry (H := sample_const) sample_entry_zero)
  = VFloat (S754_zero false)
  ∧ form_defaults (config_flow.init_schema (H := sample_const) sample_entry_zero) !! 1
    = Some ("distance", Some (VInt 10)).
Proof.
  destruct (options_form_shows_truthy_only (H := sample_const) sample_entry_zero
              (VFloat (S754_zero false)) eq_refl)
    as (Hsetup & _ & Hform).
  split; [done|]. by apply Hform.
Defined.

(** The wizard's entry for the sample input sets both platforms up. *)
Lemma wizard_entry_sets_up_sample :
  ∃ d, config_flow.async_step_user (H := sample_const)
         (sample_hass VNone) (Some sample_input)
       = Returned (config_flow.create_entry (VStr "Planes Nearby") d)
    ∧ geo_location.async_setup_entry (H := sample_const) (entry_of d)
      = {| sensor._location_entity_id := VStr "zone.home";
           sensor._distance := VFloat float_25;
           sensor.data := None |}.
Proof.
  assert (valid_location (sample_hass VNone) "zone.home") as Hvalid.
  { exists sample_home. split; [reflexivity|]. split; eexists; reflexivity. }
  destruct (wizard_entry_sets_up (H := sample_const) (sample_hass VNone)
              sample_input "zone.home" (VFloat float_25)
              ltac:(discriminate) ltac:(discriminate) ltac:(discriminate)
              eq_refl eq_refl Hvalid)
    as (d & Hstep & _ & _ & Hgeo).
  exists d. split; [exact Hstep|exact Hgeo].
Defined.

(** The empty input raises [KeyError]. *)
Lemma step_missing_key_raises_sample :
  config_flow.async_step_user (H := sample_const) (sample_hass VNone) (Some ∅)
  = Raised KeyError.
Proof.
  apply (step_missing_key_raises (H := sample_const) (sample_hass VNone)
           sample_entry ∅).
  by left.
Defined.

